(** * orchpy worker: call / resolve / execute protocol

    A shallow embedding of [lib/orchpy/orchpy/worker.py] (Python 2) and the
    properties of its argument checking, argument resolution, output storage,
    function registry and main loop.

    Python integers are [Z]; [len] therefore returns a [Z] and the
    comparisons against [len(function.arg_types) - 1] are the ones of the
    source, also when that difference is negative.  Exceptions and blocking
    library calls are outcomes of a small error monad; calls into the
    extension module [orchpy.lib] act on an explicit [world] (object store,
    scheduler, call trace).  The mutable [Worker] object is passed
    explicitly and returned by the functions that assign its attributes.
    The [print] statements of the source write to standard output only and
    are left out; [register_module], [pull] and [push] are not needed by
    the properties below. *)

From Stdlib Require Import ZArith List String Bool Lia.
From stdpp Require Import base gmap strings list fin_maps.

Local Open Scope Z_scope.

(** ** Python values and types *)

(** Object references are opaque tokens ([orchpy.lib.ObjRef]). *)
Abbreviation objref := nat.

(** The closed universe of Python values the development computes with. *)
#[local] Set Warnings "-register-all".
Inductive value : Type :=
| VNone
| VBool (b : bool)
| VInt (n : Z)
| VStr (s : string)
| VList (xs : list value)
| VTuple (xs : list value)
| VObjRef (r : objref).

(** The type objects of that universe. *)
Inductive pytype : Type :=
| T_NoneType | T_bool | T_int | T_long | T_str | T_list | T_tuple | T_ObjRef | T_object.

#[global] Instance pytype_eq_dec : EqDecision pytype.
Proof. solve_decision. Defined.

(** An element of [arg_types]: a type object, or [None], the variadic
    sentinel. *)
Abbreviation descriptor := (option pytype).

(** [sys.maxint]: the largest plain integer of Python 2 (a 64-bit build). *)
Definition sys_maxint : Z := 9223372036854775807.

(** Python's [type(v)].  An integer outside the range of plain integers is
    a [long], which is not an [int]. *)
Definition type_of (v : value) : pytype :=
  match v with
  | VNone => T_NoneType
  | VBool _ => T_bool
  | VInt n =>
      if (- sys_maxint - 1 <=? n) && (n <=? sys_maxint) then T_int else T_long
  | VStr _ => T_str
  | VList _ => T_list
  | VTuple _ => T_tuple
  | VObjRef _ => T_ObjRef
  end.

(** Python's [issubclass] on the universe: every type derives from
    [object], and [bool] derives from [int]. *)
Definition issubclass (c t : pytype) : bool :=
  match t, c with
  | T_object, _ => true
  | T_int, T_bool => true
  | _, _ => bool_decide (c = t)
  end.

(** [type(arg) == orchpy.lib.ObjRef] *)
Definition is_ObjRef (v : value) : bool :=
  match v with VObjRef _ => true | _ => false end.

(** ** Outcomes *)

Inductive exn : Type :=
(** "Function {} expects {} arguments, but received {}." *)
| ArityError (name : string) (expected received : Z)
(** "Function {} expects at least {} arguments, but received {}." *)
| ArityAtLeastError (name : string) (at_least received : Z)
(** "Argument {} for function {} has type {} but an argument of type {}
    was expected." *)
| TypeMismatchError (i : Z) (name : string) (actual : pytype) (expected : descriptor)
(** "The @distributed decorator for function {} has {} return values with
    types {}, but {} returned {} values." *)
| ReturnArityError (name : string) (declared : Z) (types : list pytype) (returned : Z)
(** "Worker is attempting to enter main_loop but has not been connected
    yet." *)
| NotConnectedError
(** [assert False, msg] *)
| AssertionError (msg : string)
(** builtin errors of the interpreter *)
| TypeError (msg : string)
| IndexError
| KeyError (key : string)
(** an [orchpy.lib] call refused by the extension module *)
| LibError (msg : string)
(** anything the body of a user function raises *)
| UserError (msg : string).

(** What a blocked library call is waiting for. *)
Inductive wait : Type :=
| WaitObject (r : objref)
| WaitTask.

Inductive result (A : Type) : Type :=
| Returns (a : A)
| Raises (e : exn)
| Blocks (on : wait).
Arguments Returns {A} a.
Arguments Raises {A} e.
Arguments Blocks {A} on.

Definition bind_result {A B} (m : result A) (k : A -> result B) : result B :=
  match m with
  | Returns a => k a
  | Raises e => Raises e
  | Blocks on => Blocks on
  end.

Declare Scope result_scope.
Delimit Scope result_scope with res.
Notation "x <- m ;; k" := (bind_result m (fun x => k))
  (at level 100, m at next level, right associativity) : result_scope.

(** ** Python primitives *)

Definition len {A} (l : list A) : Z := Z.of_nat (length l).

(** [l[i]] on a Python list or tuple, negative indices counting from the
    end. *)
Definition getitem {A} (l : list A) (i : Z) : result A :=
  let j := if i <? 0 then len l + i else i in
  if j <? 0 then Raises IndexError
  else match l !! Z.to_nat j with
       | Some x => Returns x
       | None => Raises IndexError
       end.

(** Python's builtin [len(v)]. *)
Definition py_len (v : value) : result Z :=
  match v with
  | VStr s => Returns (Z.of_nat (String.length s))
  | VList xs | VTuple xs => Returns (len xs)
  | VNone => Raises (TypeError "object of type 'NoneType' has no len()")
  | VBool _ => Raises (TypeError "object of type 'bool' has no len()")
  | VInt n =>
      Raises (TypeError match type_of v with
                        | T_long => "object of type 'long' has no len()"
                        | _ => "object of type 'int' has no len()"
                        end)
  | VObjRef _ => Raises (TypeError "object of type 'ObjRef' has no len()")
  end.

(** [v[i]] on a value. *)
Definition py_getitem (v : value) (i : Z) : result value :=
  match v with
  | VList xs | VTuple xs => getitem xs i
  | VStr s =>
      c <- getitem (list_ascii_of_string s) i ;;
      Returns (VStr (String c EmptyString))
  | _ => Raises (TypeError "object has no attribute '__getitem__'")
  end%res.

(** [isinstance(v, d)]: the second argument must be a type object. *)
Definition isinstance (v : value) (d : descriptor) : result bool :=
  match d with
  | Some t => Returns (issubclass (type_of v) t)
  | None => Raises (TypeError "isinstance() arg 2 must be a class, type, or tuple of classes and types")
  end.

(** [l > n] for a list [l] and an integer [n].  Python 2 orders objects of
    different types with numbers before everything else, so the comparison
    is true whatever the list holds. *)
Definition list_gt_int {A} (l : list A) (n : Z) : value := VBool true.

(** [d is None] *)
Definition is_None (d : descriptor) : bool :=
  match d with None => true | Some _ => false end.

(** ** The extension module [orchpy.lib] and the world it acts on *)

(** Modelled from the spec: the value codec, the module [serialization]
    that the worker imports.  It is opaque to the worker and assumed to
    round-trip without loss, so a capsule simply carries the value. *)
Inductive capsule : Type := Capsule (v : value).

Definition serialize (v : value) : capsule := Capsule v.
Definition deserialize (c : capsule) : value := match c with Capsule v => v end.

(** A call on the wire: function name, arguments, and the output references
    the scheduler allocated for it (none before dispatch). *)
Record call_capsule : Type := Call {
  call_func_name : string;
  call_args : list value;
  call_return_objrefs : list objref;
}.

(** The connection handle [create_worker] returns. *)
Inductive handle_t : Type :=
| Handle (scheduler_addr objstore_addr worker_addr : string).

(** One entry per call into [orchpy.lib], in program order. *)
Inductive event : Type :=
| EvCreateWorker (scheduler_addr objstore_addr worker_addr : string)
| EvRegisterFunction (name : string) (arity : Z)
| EvRemoteCall (name : string) (args : list value)
| EvPutObject (r : objref) (c : capsule)
| EvGetObject (r : objref)
| EvStartWorkerService
| EvWaitForNextTask
| EvNotifyTaskCompleted.

Record world : Type := World {
  objstore : gmap objref capsule;   (* the local object store *)
  registered : gmap string Z;       (* scheduler: function name -> return arity *)
  next_objref : objref;             (* scheduler: next unused reference *)
  task_queue : list call_capsule;   (* scheduler: tasks assigned to this worker *)
  trace : list event;               (* calls into orchpy.lib so far *)
}.

(** Computations that act on the world. *)
Definition M (A : Type) : Type := world -> result A * world.

Definition ret {A} (a : A) : M A := fun s => (Returns a, s).
Definition raise {A} (e : exn) : M A := fun s => (Raises e, s).
Definition block {A} (on : wait) : M A := fun s => (Blocks on, s).
Definition lift {A} (r : result A) : M A := fun s => (r, s).

Definition bind {A B} (m : M A) (k : A -> M B) : M B :=
  fun s =>
    match m s with
    | (Returns a, s') => k a s'
    | (Raises e, s') => (Raises e, s')
    | (Blocks on, s') => (Blocks on, s')
    end.

Declare Scope M_scope.
Delimit Scope M_scope with M.
Notation "x <- m ;; k" := (bind m (fun x => k))
  (at level 100, m at next level, right associativity) : M_scope.
Notation "m ;; k" := (bind m (fun _ => k))
  (at level 100, right associativity) : M_scope.

(** The world after one more library call. *)
Definition record_event (s : world) (ev : event) : world :=
  World (objstore s) (registered s) (next_objref s) (task_queue s) (trace s ++ [ev]).

Definition log (ev : event) : M unit :=
  fun s => (Returns tt, record_event s ev).

(** Modelled from the spec: every [orchpy.lib] call takes the worker's
    handle first, and a call attempted before the worker is connected (its
    handle is still [None]) signals an error instead of reaching the
    scheduler or the store. *)
Definition with_handle {A} (h : option handle_t) (m : M A) : M A :=
  match h with
  | Some _ => m
  | None => raise (LibError "must be a 'worker' capsule")
  end.

Module lib.

(** Modelled from the spec: [put(ref, bytes)] of the object store.  The
    spec leaves a second write to the same reference undefined; here the
    store keeps the later capsule and the trace keeps both writes. *)
Definition put_object (h : option handle_t) (r : objref) (c : capsule) : M unit :=
  with_handle h (
    log (EvPutObject r c) ;;
    fun s => (Returns tt,
              World (<[r := c]> (objstore s)) (registered s) (next_objref s)
                    (task_queue s) (trace s)))%M.

(** Modelled from the spec: [get(ref) -> bytes], which blocks until the
    reference has been written. *)
Definition get_object (h : option handle_t) (r : objref) : M capsule :=
  with_handle h (
    log (EvGetObject r) ;;
    fun s => match objstore s !! r with
             | Some c => (Returns c, s)
             | None => (Blocks (WaitObject r), s)
             end)%M.

(** Modelled from the spec: [register_function(name, return_arity)] of the
    scheduler. *)
Definition register_function (h : option handle_t) (name : string) (arity : Z) : M unit :=
  with_handle h (
    log (EvRegisterFunction name arity) ;;
    fun s => (Returns tt,
              World (objstore s) (<[name := arity]> (registered s)) (next_objref s)
                    (task_queue s) (trace s)))%M.

(** Modelled from the spec: the wire encoding of calls, a lossless round
    trip. *)
Definition serialize_call (func_name : string) (args : list value) : call_capsule :=
  Call func_name args [].

Definition deserialize_call (c : call_capsule) : string * list value * list objref :=
  (call_func_name c, call_args c, call_return_objrefs c).

(** Modelled from the spec: [remote_call(name, args) -> refs], the
    non-blocking dispatch.  The scheduler allocates one fresh reference per
    return value it was told of at registration and queues the task.  The
    spec does not say what happens for a name nobody registered; the model
    refuses the call. *)
Definition remote_call (h : option handle_t) (c : call_capsule) : M (list objref) :=
  with_handle h (
    log (EvRemoteCall (call_func_name c) (call_args c)) ;;
    fun s => match registered s !! call_func_name c with
             | Some n =>
                 let objrefs := seq (next_objref s) (Z.to_nat n) in
                 (Returns objrefs,
                  World (objstore s) (registered s)
                        (next_objref s + Z.to_nat n)%nat
                        (task_queue s ++ [Call (call_func_name c) (call_args c) objrefs])
                        (trace s))
             | None => (Raises (LibError "function not registered"), s)
             end)%M.

(** Modelled from the spec: starting the worker service has no result the
    worker reads. *)
Definition start_worker_service (h : option handle_t) : M unit :=
  with_handle h (log EvStartWorkerService).

(** Modelled from the spec: [wait_for_next_task() -> Task], blocking. *)
Definition wait_for_next_task (h : option handle_t) : M call_capsule :=
  with_handle h (
    log EvWaitForNextTask ;;
    fun s => match task_queue s with
             | c :: rest =>
                 (Returns c,
                  World (objstore s) (registered s) (next_objref s) rest (trace s))
             | [] => (Blocks WaitTask, s)
             end)%M.

(** Modelled from the spec: [notify_task_completed()]. *)
Definition notify_task_completed (h : option handle_t) : M unit :=
  with_handle h (log EvNotifyTaskCompleted).

(** Modelled from the spec: [connect(scheduler_address, store_address,
    worker_address)] establishes the handle. *)
Definition create_worker (scheduler_addr objstore_addr worker_addr : string) : M handle_t :=
  (log (EvCreateWorker scheduler_addr objstore_addr worker_addr) ;;
   ret (Handle scheduler_addr objstore_addr worker_addr))%M.

End lib.

(** ** Function objects and the worker *)

(** A plain Python function, as the decorator receives it.  Its body may
    itself call into the library (dispatch other calls, read the store), so
    it is a computation on the world. *)
Record pyfunc : Type := PyFunc {
  f_module : string;                  (* func.__module__ *)
  f_name : string;                    (* func.__name__ *)
  f_body : list value -> M value;     (* func( *arguments ) *)
}.

(** The object the decorator returns: the closure [func_call] together with
    the attributes set on it (lines 89-93).  On a Python 2 function object
    [func_name] and [__name__] are two spellings of one attribute, so the
    assignment on line 89 sets both; the record keeps a field for each
    spelling the source reads. *)
Record function : Type := Function {
  __name__ : string;
  func_name : string;
  executor : list value -> M value;
  arg_types : list descriptor;
  return_types : list pytype;
  is_distributed : bool;
}.

(** [class Worker] *)
Record Worker : Type := MkWorker {
  functions : gmap string function;
  connected : bool;
  handle : option handle_t;
}.

(** [Worker.__init__] *)
Definition Worker_init : Worker := MkWorker ∅ false None.

Definition put_object (self : Worker) (r : objref) (v : value) : M unit :=
  let object_capsule := serialize v in
  lib.put_object (handle self) r object_capsule.

Definition get_object (self : Worker) (r : objref) : M value :=
  (object_capsule <- lib.get_object (handle self) r ;;
   ret (deserialize object_capsule))%M.

(** The updated worker is returned: [self.functions] is assigned only after
    the scheduler has been notified. *)
Definition register_function (self : Worker) (f : function) : M Worker :=
  (lib.register_function (handle self) (func_name f) (len (return_types f)) ;;
   ret (MkWorker (<[func_name f := f]> (functions self)) (connected self) (handle self)))%M.

Definition remote_call (self : Worker) (name : string) (args : list value) : M (list objref) :=
  let call_capsule := lib.serialize_call name args in
  (objrefs <- lib.remote_call (handle self) call_capsule ;;
   ret objrefs)%M.

(** [connect]: the [del] of the old handle leaves no trace in the model. *)
Definition connect (scheduler_addr objstore_addr worker_addr : string) (worker : Worker) : M Worker :=
  (h <- lib.create_worker scheduler_addr objstore_addr worker_addr ;;
   ret (MkWorker (functions worker) true (Some h)))%M.

(** ** Argument checking *)

(** The choice of [expected_type] for position [i]; lines 106-113 of
    [check_arguments] and lines 135-142 of [get_arguments_for_execution]
    are the same text.  [and] evaluates its right operand only when the
    left one is true. *)
Definition expected_type (f : function) (i : Z) : result descriptor :=
  (if i <? len (arg_types f) - 1 then
     getitem (arg_types f) i
   else
     c2 <- (if i =? len (arg_types f) - 1
            then last <- getitem (arg_types f) (-1) ;; Returns (negb (is_None last))
            else Returns false) ;;
     if c2 : bool then
       getitem (arg_types f) (-1)
     else
       c3 <- (last <- getitem (arg_types f) (-1) ;;
              if is_None last
              then n <- py_len (list_gt_int (arg_types f) 1) ;; Returns (negb (n =? 0))
              else Returns false) ;;
       if c3 : bool then
         getitem (arg_types f) (-2)
       else
         Raises (AssertionError "This code should be unreachable."))%res.

(** The body of [for (i, arg) in enumerate(args)] in [check_arguments],
    from position [i] on. *)
Fixpoint check_arguments_loop (f : function) (i : Z) (args : list value) : result unit :=
  match args with
  | [] => Returns tt
  | arg :: rest =>
      (expected <- expected_type f i ;;
       _ <- (if is_ObjRef arg then
               Returns tt
             else
               ok <- isinstance arg expected ;;
               if negb ok
               then Raises (TypeMismatchError i (__name__ f) (type_of arg) expected)
               else Returns tt) ;;
       check_arguments_loop f (i + 1) rest)%res
  end.

Definition check_arguments (f : function) (args : list value) : result unit :=
  (c1 <- (if negb (len args =? len (arg_types f))
          then last <- getitem (arg_types f) (-1) ;; Returns (negb (is_None last))
          else Returns false) ;;
   if c1 : bool then
     Raises (ArityError (__name__ f) (len (arg_types f)) (len args))
   else
     c2 <- (if len args <? len (arg_types f) - 1
            then last <- getitem (arg_types f) (-1) ;; Returns (is_None last)
            else Returns false) ;;
     if c2 : bool then
       Raises (ArityAtLeastError (__name__ f) (len (arg_types f) - 1) (len args))
     else
       check_arguments_loop f 0 args)%res.

(** ** Argument resolution *)

(** Lines 144-150: an object reference is read from the local object
    store, anything else is passed by value. *)
Definition fetch_argument (worker : Worker) (arg : value) : M value :=
  match arg with
  | VObjRef r => get_object worker r
  | _ => ret arg
  end.

(** One pass through the body of the loop of
    [get_arguments_for_execution] (lines 135-153): the value that
    [arguments.append] receives at position [i]. *)
Definition get_arguments_step (f : function) (worker : Worker) (i : Z)
    (arg : value) : M value :=
  (expected <- lift (expected_type f i) ;;
   argument <- fetch_argument worker arg ;;
   ok <- lift (isinstance argument expected) ;;
   if negb ok
   then raise (TypeMismatchError i (__name__ f) (type_of argument) expected)
   else ret argument)%M.

(** The loop from position [i] on, with the list [arguments] built so
    far. *)
Fixpoint get_arguments_loop (f : function) (worker : Worker) (i : Z)
    (args : list value) (arguments : list value) : M (list value) :=
  match args with
  | [] => ret arguments
  | arg :: rest =>
      (argument <- get_arguments_step f worker i arg ;;
       get_arguments_loop f worker (i + 1) rest (arguments ++ [argument]))%M
  end.

(** The argument-count check at the head of the function is inside a string
    literal in the source and is not executed. *)
Definition get_arguments_for_execution (f : function) (args : list value)
    (worker : Worker) : M (list value) :=
  get_arguments_loop f worker 0 args [].

(** ** Output storage *)

(** [for i in range(len(objrefs))], from index [i] on; [rest] is what is
    left of [objrefs]. *)
Fixpoint store_outputs_loop (worker : Worker) (outputs : value) (i : Z)
    (rest : list objref) : M unit :=
  match rest with
  | [] => ret tt
  | r :: rest' =>
      (output <- lift (py_getitem outputs i) ;;
       put_object worker r output ;;
       store_outputs_loop worker outputs (i + 1) rest')%M
  end.

Definition store_outputs_in_objstore (objrefs : list objref) (outputs : value)
    (worker : Worker) : M unit :=
  if len objrefs =? 1 then
    (r <- lift (getitem objrefs 0) ;;
     put_object worker r outputs)%M
  else
    store_outputs_loop worker outputs 0 objrefs.

(** ** The decorator *)

Definition func_executor (func : pyfunc) (return_types : list pytype)
    (arguments : list value) : M value :=
  (result <- f_body func arguments ;;
   if negb (len return_types =? 1) then
     n <- lift (py_len result) ;;
     if negb (n =? len return_types)
     then raise (ReturnArityError (f_name func) (len return_types) return_types n)
     else ret result
   else ret result)%M.

(** [func_call( *args )]; [self] is the function object itself, through
    which the closure reads [func_call.func_name] and [check_arguments]
    reads [arg_types]. *)
Definition func_call (worker : Worker) (self : function) (args : list value) : M value :=
  (lift (check_arguments self args) ;;
   objrefs <- remote_call worker (func_name self) args ;;
   if len objrefs =? 1
   then r <- lift (getitem objrefs 0) ;; ret (VObjRef r)
   else ret (VList (map VObjRef objrefs)))%M.

(** ["{}.{}".format(func.__module__, func.__name__)] *)
Definition qualified_name (func : pyfunc) : string :=
  String.append (f_module func) (String.append "." (f_name func)).

(** Line 89 renames the closure: from then on [func_call.__name__], which
    the messages of [check_arguments] and [get_arguments_for_execution]
    print, is the qualified name too. *)
Definition distributed (arg_types : list descriptor) (return_types : list pytype)
    (func : pyfunc) : function :=
  Function (qualified_name func)
           (qualified_name func)
           (func_executor func return_types)
           arg_types return_types true.

(** ** The main loop *)

(** Python's [d[k]] on a dict with string keys. *)
Definition dict_getitem {A} (d : gmap string A) (k : string) : result A :=
  match d !! k with
  | Some a => Returns a
  | None => Raises (KeyError k)
  end.

(** One pass through the body of [while True]. *)
Definition main_loop_body (worker : Worker) : M unit :=
  (call <- lib.wait_for_next_task (handle worker) ;;
   let '(func_name, args, return_objrefs) := lib.deserialize_call call in
   f <- lift (dict_getitem (functions worker) func_name) ;;
   arguments <- get_arguments_for_execution f args worker ;;
   f' <- lift (dict_getitem (functions worker) func_name) ;;
   outputs <- executor f' arguments ;;
   store_outputs_in_objstore return_objrefs outputs worker ;;
   lib.notify_task_completed (handle worker))%M.

(** The loop never ends on its own: after [fuel] passes it is still
    running. *)
Inductive running : Type := StillRunning.

Fixpoint while_True (fuel : nat) (worker : Worker) : M running :=
  match fuel with
  | O => ret StillRunning
  | S fuel' => (main_loop_body worker ;; while_True fuel' worker)%M
  end.

Definition main_loop (fuel : nat) (worker : Worker) : M running :=
  if negb (connected worker) then
    raise NotConnectedError
  else
    (lib.start_worker_service (handle worker) ;;
     while_True fuel worker)%M.

(** ** Module registration *)

(** What [getattr(module, name)] returns: a function object made by the
    decorator, or any other object, which has no [is_distributed]
    attribute. *)
Inductive attribute : Type :=
| AttrFunction (f : function)
| AttrOther.

(** A Python module as [register_module] sees it: its [__name__] and its
    attributes in the order in which [dir(module)] lists their names. *)
Record pymodule : Type := PyModule {
  module__name__ : string;
  module_dir : list (string * attribute);
}.

(** [hasattr(val, "is_distributed") and val.is_distributed] *)
Definition attr_is_distributed (val : attribute) : bool :=
  match val with
  | AttrFunction f => is_distributed f
  | AttrOther => false
  end.

(** [for name in dir(module)], over the attributes left. *)
Fixpoint register_module_loop (attrs : list (string * attribute)) (worker : Worker)
    : M Worker :=
  match attrs with
  | [] => ret worker
  | (name, val) :: rest =>
      (worker' <- (if attr_is_distributed val
                   then match val with
                        | AttrFunction f => register_function worker f
                        | AttrOther => ret worker
                        end
                   else ret worker) ;;
       register_module_loop rest worker')%M
  end.

(** The branch for submodules is commented out in the source, so
    [recursive] is never read. *)
Definition register_module (module : pymodule) (recursive : bool) (worker : Worker)
    : M Worker :=
  register_module_loop (module_dir module) worker.

(** ** Predicates used in the statements *)

(** What one pass of the loop of [check_arguments] demands of an argument:
    a descriptor is found for its position and, unless the argument is an
    object reference, it is an instance of that descriptor. *)
Definition accepted_at (f : function) (i : Z) (arg : value) : Prop :=
  exists d, expected_type f i = Returns d /\
            (is_ObjRef arg = true \/ isinstance arg d = Returns true).

(** The elements a sized value is made of, in order: what [v[0]], [v[1]],
    ... read. *)
Definition elements (v : value) : list value :=
  match v with
  | VList xs | VTuple xs => xs
  | VStr s => map (fun c => VStr (String c EmptyString)) (list_ascii_of_string s)
  | _ => []
  end.

(** The store after writing the capsules of [outs] under [objrefs],
    position by position. *)
Fixpoint write_all (m : gmap objref capsule) (objrefs : list objref) (outs : list value)
    : gmap objref capsule :=
  match objrefs, outs with
  | r :: objrefs', o :: outs' => write_all (<[r := serialize o]> m) objrefs' outs'
  | _, _ => m
  end.

(** The library calls [put_object] makes for [objrefs] and [outs]. *)
Definition put_events (objrefs : list objref) (outs : list value) : list event :=
  zip_with (fun r o => EvPutObject r (serialize o)) objrefs outs.

(** The function name an error message contains, if it contains one. *)
Definition named_function (e : exn) : option string :=
  match e with
  | ArityError name _ _ => Some name
  | ArityAtLeastError name _ _ => Some name
  | TypeMismatchError _ name _ _ => Some name
  | ReturnArityError name _ _ _ => Some name
  | _ => None
  end.

(** The body of [while True] after the task has been received: what the
    loop does with the call [c]. *)
Definition run_task (worker : Worker) (c : call_capsule) : M unit :=
  (f <- lift (dict_getitem (functions worker) (call_func_name c)) ;;
   arguments <- get_arguments_for_execution f (call_args c) worker ;;
   f' <- lift (dict_getitem (functions worker) (call_func_name c)) ;;
   outputs <- executor f' arguments ;;
   store_outputs_in_objstore (call_return_objrefs c) outputs worker ;;
   lib.notify_task_completed (handle worker))%M.

(** The function objects of a module that [register_module] registers, in
    [dir] order. *)
Definition distributed_functions (attrs : list (string * attribute)) : list function :=
  omap (fun '(_, val) =>
          match val with
          | AttrFunction f => if is_distributed f then Some f else None
          | AttrOther => None
          end) attrs.

(** The library call [register_function] makes for [f]. *)
Definition registration_event (f : function) : event :=
  EvRegisterFunction (func_name f) (len (return_types f)).

(** The object references among the arguments, in order: what resolution
    reads from the store. *)
Definition references (args : list value) : list objref :=
  omap (fun arg => match arg with VObjRef r => Some r | _ => None end) args.

(** The argument is accepted at call time under descriptor list [ds] at
    position [k]: it is an object reference, or an instance of the type
    object that [ds] holds at [k]. *)
Definition matches_descriptor (ds : list descriptor) (k : nat) (arg : value) : Prop :=
  is_ObjRef arg = true \/
  exists t, ds !! k = Some (Some t) /\ issubclass (type_of arg) t = true.

(** Two worlds that differ in the trace of library calls only. *)
Definition same_but_trace (s s' : world) : Prop :=
  objstore s' = objstore s /\ registered s' = registered s /\
  next_objref s' = next_objref s /\ task_queue s' = task_queue s.

(** What resolution substitutes for an argument in world [s]: the
    deserialized capsule the store holds for an object reference, the
    argument itself for anything else. *)
Definition resolves_to (s : world) (arg v : value) : Prop :=
  match arg with
  | VObjRef r => exists c, objstore s !! r = Some c /\ v = deserialize c
  | _ => v = arg
  end.

(** ** Example programs *)

Module Examples.

(** [def add(a, b): return a + b] *)
Definition add_body (arguments : list value) : M value :=
  match arguments with
  | [VInt a; VInt b] => ret (VInt (a + b))
  | _ => raise (TypeError "unsupported operand type(s) for +")
  end.

(** [@distributed([int, int], [int])] *)
Definition add : function :=
  distributed [Some T_int; Some T_int] [T_int] (PyFunc "example" "add" add_body).

(** [def split(a): return a[0], a[1]] *)
Definition split_body (arguments : list value) : M value :=
  match arguments with
  | [a] => (x <- lift (py_getitem a 0) ;;
            y <- lift (py_getitem a 1) ;;
            ret (VTuple [x; y]))%M
  | _ => raise (TypeError "split() takes exactly 1 argument")
  end.

(** [@distributed([str], [str, str])] *)
Definition split : function :=
  distributed [Some T_str] [T_str; T_str] (PyFunc "example" "split" split_body).

(** [def total(first, *rest)], declared [@distributed([int, None], [int])] *)
Definition total_body (arguments : list value) : M value :=
  ret (VInt (fold_right (fun v acc => match v with VInt n => n + acc | _ => acc end)
                        0 arguments)).

Definition total : function :=
  distributed [Some T_int; None] [T_int] (PyFunc "example" "total" total_body).

(** [def sum3(a, b, *rest)], declared
    [@distributed([int, int, None], [int])] *)
Definition sum3 : function :=
  distributed [Some T_int; Some T_int; None] [T_int]
              (PyFunc "example" "sum3" total_body).

(** [def label(n, s)], declared [@distributed([int, str], [str])] *)
Definition label_body (arguments : list value) : M value :=
  match arguments with
  | [_; s] => ret s
  | _ => raise (TypeError "label() takes exactly 2 arguments")
  end.

Definition label : function :=
  distributed [Some T_int; Some T_str] [T_str] (PyFunc "example" "label" label_body).

(** [def now(): return 0], declared [@distributed([], [int])] *)
Definition now : function :=
  distributed [] [T_int] (PyFunc "example" "now" (fun _ => ret (VInt 0))).

(** [def seven(): return 7], a body that returns one value that has no
    length. *)
Definition seven : pyfunc :=
  PyFunc "example" "seven" (fun _ => ret (VInt 7)).

(** A body that returns three values whatever it is given. *)
Definition triple : pyfunc :=
  PyFunc "example" "triple" (fun _ => ret (VTuple [VInt 1; VInt 2; VInt 3])).

Definition the_handle : handle_t := Handle "scheduler:1" "objstore:1" "worker:1".

(** A worker after [connect], nothing registered yet. *)
Definition connected_worker : Worker := MkWorker ∅ true (Some the_handle).

(** The world before anything happened. *)
Definition empty_world : world := World ∅ ∅ 0%nat [] [].

(** A world whose store holds the string ["a"] under reference 1 and
    nothing under reference 0. *)
Definition world_with_str : world :=
  World {[ 1%nat := serialize (VStr "a") ]} ∅ 2%nat [] [].

(** A value of each type, to call a function with.  An object reference
    is dereferenced at resolution, so the sample for [ObjRef] is a
    reference under which [sample_world] stores a reference. *)
Definition sample_value (t : pytype) : value :=
  match t with
  | T_NoneType => VNone
  | T_bool => VBool false
  | T_int => VInt 0
  | T_long => VInt (sys_maxint + 1)
  | T_str => VStr ""
  | T_list => VList []
  | T_tuple => VTuple []
  | T_ObjRef => VObjRef 0%nat
  | T_object => VNone
  end.

Definition sample_world : world :=
  World {[ 0%nat := serialize (VObjRef 0%nat) ]} ∅ 1%nat [] [].

(** A world in which the scheduler knows [add] and [split]. *)
Definition world_registered : world :=
  World ∅ {[ "example.add" := 1; "example.split" := 2 ]} 0%nat [] [].

(** A module with two distributed functions among other attributes. *)
Definition example_module : pymodule :=
  PyModule "example"
           [("__doc__", AttrOther); ("__name__", AttrOther);
            ("add", AttrFunction add); ("helper", AttrOther);
            ("split", AttrFunction split)].

(** Connect, register [f], call it with [args], let the main loop make one
    pass, and read what is stored under the references the call returned. *)
Definition call_and_run (f : function) (args : list value) : M value :=
  (w <- connect "scheduler:1" "objstore:1" "worker:1" Worker_init ;;
   w <- register_function w f ;;
   r <- func_call w f args ;;
   main_loop 1 w ;;
   match r with
   | VObjRef r => get_object w r
   | VList [VObjRef r1; VObjRef r2] =>
       v1 <- get_object w r1 ;; v2 <- get_object w r2 ;; ret (VTuple [v1; v2])
   | _ => ret VNone
   end)%M.

End Examples.

(** * Properties *)

(** ** Helper lemmas: indexing *)

Lemma len_nonneg {A} (l : list A) : 0 <= len l.
Proof. unfold len. lia. Qed.

Lemma len_app {A} (l1 l2 : list A) : len (l1 ++ l2) = len l1 + len l2.
Proof. unfold len. rewrite length_app. lia. Qed.

Lemma len_cons {A} (x : A) (l : list A) : len (x :: l) = 1 + len l.
Proof. unfold len. simpl. lia. Qed.

(** A non-negative index reads the list at that position. *)
Lemma getitem_nonneg {A} (l : list A) (i : nat) (x : A) :
  l !! i = Some x -> getitem l (Z.of_nat i) = Returns x.
Proof.
  intros H. unfold getitem.
  destruct (Z.of_nat i <? 0) eqn:E; [apply Z.ltb_lt in E; lia|].
  rewrite E, Nat2Z.id, H. reflexivity.
Qed.

(** [l[-1]] is the last element, and an [IndexError] on the empty list. *)
Lemma getitem_last {A} (l : list A) :
  getitem l (-1) = match last l with Some x => Returns x | None => Raises IndexError end.
Proof.
  unfold getitem. change (-1 <? 0) with true. cbv iota.
  destruct l as [|a l] using rev_ind.
  - reflexivity.
  - rewrite len_app, last_snoc. change (len [a]) with 1.
    pose proof (len_nonneg l).
    destruct (len l + 1 + -1 <? 0) eqn:E; [apply Z.ltb_lt in E; lia|].
    replace (Z.to_nat (len l + 1 + -1)) with (length l) by (unfold len; lia).
    rewrite lookup_app_r by lia. rewrite Nat.sub_diag. reflexivity.
Qed.

(** ** Helper lemmas: the descriptor chosen for a position *)

Section ExpectedType.

Variable f : function.

(** Before the last descriptor the position's own descriptor is taken. *)
Lemma expected_type_before_last (i : nat) (d : descriptor) :
  Z.of_nat i < len (arg_types f) - 1 ->
  arg_types f !! i = Some d ->
  expected_type f (Z.of_nat i) = Returns d.
Proof.
  intros Hlt Hd. unfold expected_type.
  apply Z.ltb_lt in Hlt. rewrite Hlt.
  apply getitem_nonneg, Hd.
Qed.

(** A position that carries a type object of its own is checked against
    that type. *)
Lemma expected_type_declared (i : nat) (t : pytype) :
  arg_types f !! i = Some (Some t) ->
  expected_type f (Z.of_nat i) = Returns (Some t).
Proof.
  intros Hd.
  pose proof (lookup_lt_Some _ _ _ Hd) as Hlen.
  destruct (Z.lt_ge_cases (Z.of_nat i) (len (arg_types f) - 1)) as [Hlt|Hge].
  - apply expected_type_before_last; assumption.
  - assert (Hi : i = (length (arg_types f) - 1)%nat) by (unfold len in Hge; lia).
    assert (Hlast : last (arg_types f) = Some (Some t))
      by (rewrite last_lookup, <- Nat.sub_1_r, <- Hi; exact Hd).
    unfold expected_type.
    destruct (Z.of_nat i <? len (arg_types f) - 1) eqn:E;
      [apply Z.ltb_lt in E; lia|].
    replace (Z.of_nat i =? len (arg_types f) - 1) with true
      by (symmetry; apply Z.eqb_eq; unfold len; lia).
    rewrite getitem_last, Hlast. reflexivity.
Qed.

(** With a trailing sentinel, every position from the sentinel's own on
    evaluates [len(function.arg_types > 1)], the length of a boolean. *)
Lemma expected_type_variadic_tail (i : Z) :
  last (arg_types f) = Some None ->
  len (arg_types f) - 1 <= i ->
  expected_type f i = Raises (TypeError "object of type 'bool' has no len()").
Proof.
  intros Hlast Hge. unfold expected_type.
  destruct (i <? len (arg_types f) - 1) eqn:E; [apply Z.ltb_lt in E; lia|].
  rewrite getitem_last, Hlast.
  destruct (i =? len (arg_types f) - 1); reflexivity.
Qed.

(** Without a trailing sentinel, a position past the last descriptor
    falls through to the assertion. *)
Lemma expected_type_beyond (i : Z) (t : pytype) :
  last (arg_types f) = Some (Some t) ->
  len (arg_types f) - 1 < i ->
  expected_type f i = Raises (AssertionError "This code should be unreachable.").
Proof.
  intros Hlast Hgt. unfold expected_type.
  destruct (i <? len (arg_types f) - 1) eqn:E; [apply Z.ltb_lt in E; lia|].
  destruct (i =? len (arg_types f) - 1) eqn:E'; [apply Z.eqb_eq in E'; lia|].
  rewrite getitem_last, Hlast. reflexivity.
Qed.

(** With no descriptor at all, [function.arg_types[-1]] has nothing to
    read. *)
Lemma expected_type_no_descriptors (i : Z) :
  arg_types f = [] -> 0 <= i ->
  expected_type f i = Raises IndexError.
Proof.
  intros Hnil Hi. unfold expected_type. rewrite Hnil.
  change (len (@nil descriptor) - 1) with (-1).
  destruct (i <? -1) eqn:E; [apply Z.ltb_lt in E; lia|].
  destruct (i =? -1) eqn:E'; [apply Z.eqb_eq in E'; lia|].
  reflexivity.
Qed.

Lemma getitem_Raises {A} (l : list A) (i : Z) (e : exn) :
  getitem l i = Raises e -> e = IndexError.
Proof.
  unfold getitem. repeat case_match; congruence.
Qed.

(** The three ways in which no descriptor is found for a position. *)
Lemma expected_type_Raises (i : Z) (e : exn) :
  expected_type f i = Raises e ->
  e = IndexError \/
  e = TypeError "object of type 'bool' has no len()" \/
  e = AssertionError "This code should be unreachable.".
Proof.
  unfold expected_type.
  destruct (i <? len (arg_types f) - 1).
  - intros H. left. exact (getitem_Raises _ _ _ H).
  - rewrite getitem_last.
    destruct (last (arg_types f)) as [[t|]|];
      destruct (i =? len (arg_types f) - 1); simpl;
      intros [= <-]; auto.
Qed.

End ExpectedType.

(** ** Helper lemmas: library calls *)

Lemma get_object_present (worker : Worker) (h : handle_t) (r : objref) (c : capsule) (s : world) :
  handle worker = Some h ->
  objstore s !! r = Some c ->
  get_object worker r s = (Returns (deserialize c), record_event s (EvGetObject r)).
Proof.
  intros Hh Hc. unfold get_object, lib.get_object, bind, log, ret.
  rewrite Hh. simpl. rewrite Hc. reflexivity.
Qed.

Lemma get_object_Returns (worker : Worker) (r : objref) (v : value) (s s' : world) :
  get_object worker r s = (Returns v, s') ->
  objstore s' = objstore s /\
  exists c, objstore s !! r = Some c /\ v = deserialize c.
Proof.
  unfold get_object, lib.get_object, with_handle, bind, log, ret, raise.
  destruct (handle worker); simpl; [|discriminate].
  destruct (objstore s !! r) as [c|] eqn:E; [|discriminate].
  intros [= <- <-]. simpl. split; [reflexivity|]. exists c. split; reflexivity.
Qed.

Lemma put_object_connected (worker : Worker) (h : handle_t) (r : objref) (v : value) (s : world) :
  handle worker = Some h ->
  put_object worker r v s =
    (Returns tt,
     World (<[r := serialize v]> (objstore s)) (registered s) (next_objref s)
           (task_queue s) (trace s ++ [EvPutObject r (serialize v)])).
Proof.
  intros Hh. unfold put_object, lib.put_object, bind, log. rewrite Hh. reflexivity.
Qed.

(** ** The main loop's precondition *)

(** C8: entering [main_loop] with a worker whose [connected] flag is false
    raises the connection error at once, whatever the fuel: the world is
    returned as it was given, so the worker service was not started and no
    task was waited for, resolved, executed, stored or acknowledged (the
    trace of library calls has not grown). *)
Theorem main_loop_requires_connection (fuel : nat) (worker : Worker) (s : world) :
  connected worker = false ->
  main_loop fuel worker s = (Raises NotConnectedError, s).
Proof.
  intros Hc. unfold main_loop. rewrite Hc. reflexivity.
Qed.

Lemma main_loop_requires_connection_witness :
  connected Worker_init = false /\
  main_loop 3 Worker_init Examples.empty_world
    = (Raises NotConnectedError, Examples.empty_world).
Proof.
  split; [reflexivity|].
  apply (main_loop_requires_connection 3 Worker_init Examples.empty_world).
  reflexivity.
Defined.

(** ** The function registry *)

(** C10: registering a function whose [func_name] is already in the
    registry overwrites that one entry.  Whenever [register_function]
    returns -- and it does on every worker that holds a handle -- the name
    maps to the newly registered function, every other name maps to what it
    mapped to before, and the registry has the same names and the same
    number of entries as before: no second entry is created. *)
Theorem register_function_overwrites (self : Worker) (f : function) (s : world) :
  is_Some (functions self !! func_name f) ->
  (is_Some (handle self) ->
   exists self' s', register_function self f s = (Returns self', s')) /\
  (forall self' s',
     register_function self f s = (Returns self', s') ->
     functions self' !! func_name f = Some f /\
     (forall name, name <> func_name f ->
                   functions self' !! name = functions self !! name) /\
     dom (functions self') = dom (functions self) /\
     size (functions self') = size (functions self)).
Proof.
  intros [g Hg]. split.
  - intros [h Hh].
    unfold register_function, lib.register_function, bind, log, ret.
    rewrite Hh. simpl. eexists _, _. reflexivity.
  - intros self' s'.
    unfold register_function, lib.register_function, with_handle, bind, log, ret, raise.
    destruct (handle self); simpl; [|discriminate].
    intros [= <- _]. simpl.
    split; [apply lookup_insert_eq|].
    split; [intros name Hne; apply lookup_insert_ne; congruence|].
    assert (Hdom : dom (<[func_name f := f]> (functions self)) = dom (functions self)).
    { rewrite dom_insert_L. apply subseteq_union_1_L, singleton_subseteq_l.
      apply elem_of_dom. eauto. }
    split; [exact Hdom|].
    rewrite <- !size_dom, Hdom. reflexivity.
Qed.

Lemma register_function_overwrites_witness :
  exists self' s',
    register_function
      (MkWorker {[ "example.add" := Examples.total ]} true (Some Examples.the_handle))
      Examples.add Examples.empty_world = (Returns self', s') /\
    functions self' !! "example.add" = Some Examples.add /\
    size (functions self') = 1%nat.
Proof.
  destruct (register_function_overwrites
              (MkWorker {[ "example.add" := Examples.total ]} true (Some Examples.the_handle))
              Examples.add Examples.empty_world)
    as [Hruns Hprops].
  - eexists. apply lookup_singleton_eq.
  - destruct Hruns as (self' & s' & Hrun); [eexists; reflexivity|].
    destruct (Hprops self' s' Hrun) as (Hnew & _ & _ & Hsize).
    exists self', s'. split; [exact Hrun|]. split; [exact Hnew|].
    rewrite Hsize. apply map_size_singleton.
Defined.

(** ** The executor *)

(** For a result that has a length: when the body of the function returns
    [res], an executor whose declared return arity differs from 1 raises
    the error that carries the
    function's name, the declared arity with the declared types and
    [len(res)] whenever [len(res)] differs from the declared arity,
    and returns [res] when the two agree; an executor whose declared
    return arity is 1 applies no count check and returns [res] as it
    is, whatever kind of value it is. *)
Theorem func_executor_output_count (func : pyfunc) (return_types : list pytype)
    (arguments : list value) (res : value) (s s' : world) :
  f_body func arguments s = (Returns res, s') ->
  (len return_types <> 1 ->
   forall n, py_len res = Returns n ->
     (n <> len return_types ->
      func_executor func return_types arguments s =
        (Raises (ReturnArityError (f_name func) (len return_types) return_types n), s')) /\
     (n = len return_types ->
      func_executor func return_types arguments s = (Returns res, s'))) /\
  (len return_types = 1 ->
   func_executor func return_types arguments s = (Returns res, s')).
Proof.
  intros Hbody. unfold func_executor, bind. rewrite Hbody. split.
  - intros Hne n Hn.
    apply Z.eqb_neq in Hne. rewrite Hne. simpl.
    unfold lift. rewrite Hn. split; intros Hcmp.
    + apply Z.eqb_neq in Hcmp. rewrite Hcmp. reflexivity.
    + apply Z.eqb_eq in Hcmp. rewrite Hcmp. reflexivity.
  - intros Heq. apply Z.eqb_eq in Heq. rewrite Heq. reflexivity.
Qed.

Lemma func_executor_output_count_witness :
  func_executor Examples.triple [T_int; T_int] [] Examples.empty_world =
    (Raises (ReturnArityError "triple" 2 [T_int; T_int] 3), Examples.empty_world) /\
  func_executor Examples.triple [T_int] [] Examples.empty_world =
    (Returns (VTuple [VInt 1; VInt 2; VInt 3]), Examples.empty_world).
Proof.
  split.
  - apply (func_executor_output_count Examples.triple [T_int; T_int] []
             (VTuple [VInt 1; VInt 2; VInt 3]) Examples.empty_world Examples.empty_world
             eq_refl) with (n := 3).
    + discriminate.
    + reflexivity.
    + discriminate.
  - apply (func_executor_output_count Examples.triple [T_int] []
             (VTuple [VInt 1; VInt 2; VInt 3]) Examples.empty_world Examples.empty_world
             eq_refl).
    reflexivity.
Defined.

(** C5: the body [seven] returns the single value 7; under the declared
    return types [[int, int]] it produces one value where two are declared,
    and the executor does not raise the error that names the function, the
    declared arity with its types and the output count: line 81 takes
    [len(result)] of the integer, so the executor raises the [TypeError] of
    [len] instead. *)
Theorem func_executor_scalar_result_raises_TypeError (s : world) :
  f_body Examples.seven [] s = (Returns (VInt 7), s) /\
  len [T_int; T_int] <> 1 /\
  func_executor Examples.seven [T_int; T_int] [] s =
    (Raises (TypeError "object of type 'int' has no len()"), s) /\
  (forall (n : Z) (s' : world),
     func_executor Examples.seven [T_int; T_int] [] s <>
       (Raises (ReturnArityError "seven" 2 [T_int; T_int] n), s')).
Proof.
  split; [reflexivity|]. split; [discriminate|]. split; [reflexivity|].
  intros n s'. discriminate.
Qed.

(** A result that has no length at all (an integer, [None]) makes the count
    check itself fail when the declared arity is not 1. *)
Lemma func_executor_unsized_result (func : pyfunc) (return_types : list pytype)
    (arguments : list value) (res : value) (e : exn) (s s' : world) :
  f_body func arguments s = (Returns res, s') ->
  len return_types <> 1 ->
  py_len res = Raises e ->
  func_executor func return_types arguments s = (Raises e, s').
Proof.
  intros Hbody Hne Hlen. unfold func_executor, bind. rewrite Hbody.
  apply Z.eqb_neq in Hne. rewrite Hne. simpl. unfold lift. rewrite Hlen. reflexivity.
Qed.

(** An error of the body passes through the executor. *)
Lemma func_executor_body_raises (func : pyfunc) (return_types : list pytype)
    (arguments : list value) (e : exn) (s s' : world) :
  f_body func arguments s = (Raises e, s') ->
  func_executor func return_types arguments s = (Raises e, s').
Proof.
  intros Hbody. unfold func_executor, bind. rewrite Hbody. reflexivity.
Qed.

(** ** The call-time check *)

Lemma check_arguments_loop_cons (f : function) (i : Z) (arg : value) (rest : list value) :
  check_arguments_loop f i (arg :: rest) = Returns tt <->
  accepted_at f i arg /\ check_arguments_loop f (i + 1) rest = Returns tt.
Proof.
  unfold accepted_at. simpl.
  destruct (expected_type f i) as [d|e|w]; simpl.
  - destruct (is_ObjRef arg) eqn:Href; simpl.
    + split; [intros H; split; [exists d; auto | exact H] | intros [_ H]; exact H].
    + destruct (isinstance arg d) as [[|]|e|w] eqn:Hinst; simpl.
      * split; [intros H; split; [exists d; auto | exact H] | intros [_ H]; exact H].
      * split; [discriminate|].
        intros [(d' & [= <-] & [Habs|Habs]) _]; congruence.
      * split; [discriminate|].
        intros [(d' & [= <-] & [Habs|Habs]) _]; congruence.
      * split; [discriminate|].
        intros [(d' & [= <-] & [Habs|Habs]) _]; congruence.
  - split; [discriminate | intros [(d' & Habs & _) _]; discriminate].
  - split; [discriminate | intros [(d' & Habs & _) _]; discriminate].
Qed.

(** The loop returns exactly when every argument is accepted at its
    position. *)
Lemma check_arguments_loop_Returns (f : function) (args : list value) (i : Z) :
  check_arguments_loop f i args = Returns tt <->
  forall (k : nat) (arg : value),
    args !! k = Some arg -> accepted_at f (i + Z.of_nat k) arg.
Proof.
  revert i. induction args as [|a rest IH]; intros i.
  - split; [intros _ k arg Hk; discriminate | reflexivity].
  - rewrite check_arguments_loop_cons, IH. split.
    + intros [Ha Hrest] [|k] arg Hk; simpl in Hk.
      * injection Hk as <-. rewrite Z.add_0_r. exact Ha.
      * replace (i + Z.of_nat (S k)) with (i + 1 + Z.of_nat k) by lia.
        apply Hrest, Hk.
    + intros H. split.
      * specialize (H 0%nat a eq_refl). rewrite Z.add_0_r in H. exact H.
      * intros k arg Hk. specialize (H (S k) arg Hk).
        replace (i + Z.of_nat (S k)) with (i + 1 + Z.of_nat k) in H by lia.
        exact H.
Qed.

(** The two count tests at the head of [check_arguments], for a list with
    a last descriptor. *)
Lemma check_arguments_counts (f : function) (args : list value) (last_d : descriptor) :
  last (arg_types f) = Some last_d ->
  check_arguments f args =
    if negb (len args =? len (arg_types f)) && negb (is_None last_d) then
      Raises (ArityError (__name__ f) (len (arg_types f)) (len args))
    else if (len args <? len (arg_types f) - 1) && is_None last_d then
      Raises (ArityAtLeastError (__name__ f) (len (arg_types f) - 1) (len args))
    else check_arguments_loop f 0 args.
Proof.
  intros Hlast. unfold check_arguments. rewrite getitem_last, Hlast.
  destruct (negb (len args =? len (arg_types f))); simpl.
  - destruct (is_None last_d); simpl.
    + destruct (len args <? len (arg_types f) - 1); reflexivity.
    + reflexivity.
  - destruct (len args <? len (arg_types f) - 1); simpl; [|reflexivity].
    destruct (is_None last_d); reflexivity.
Qed.

(** Without a trailing sentinel, a call with the wrong number of arguments
    is refused with the arity error that carries the expected and the
    received count, provided the function declares at least one
    descriptor. *)
Lemma check_arguments_arity (f : function) (args : list value) (t : pytype) :
  last (arg_types f) = Some (Some t) ->
  len args <> len (arg_types f) ->
  check_arguments f args =
    Raises (ArityError (__name__ f) (len (arg_types f)) (len args)).
Proof.
  intros Hlast Hne. rewrite (check_arguments_counts f args (Some t) Hlast).
  apply Z.eqb_neq in Hne. rewrite Hne. reflexivity.
Qed.

(** The proxy raises what the check raises, and the world, its trace of
    library calls included, is as before: nothing was dispatched. *)
Lemma func_call_check_raises (worker : Worker) (f : function) (args : list value)
    (e : exn) (s : world) :
  check_arguments f args = Raises e ->
  func_call worker f args s = (Raises e, s).
Proof.
  intros Hc. unfold func_call, bind, lift. rewrite Hc. reflexivity.
Qed.

Lemma func_call_arity_before_dispatch (worker : Worker) (f : function)
    (args : list value) (t : pytype) (s : world) :
  last (arg_types f) = Some (Some t) ->
  len args <> len (arg_types f) ->
  func_call worker f args s =
    (Raises (ArityError (__name__ f) (len (arg_types f)) (len args)), s).
Proof.
  intros Hlast Hne. apply func_call_check_raises.
  apply (check_arguments_arity f args t Hlast Hne).
Qed.

(** C2: a function declared without any argument descriptor has no trailing
    sentinel, and calling it with one argument does not raise the arity
    error: [function.arg_types[-1]] is evaluated on the empty list and the
    proxy raises [IndexError] (before dispatch: the world is unchanged). *)
Theorem func_call_no_descriptor_IndexError (worker : Worker) (s : world) :
  arg_types Examples.now = [] /\
  func_call worker Examples.now [VInt 1] s = (Raises IndexError, s).
Proof.
  split; [reflexivity|].
  apply func_call_check_raises. reflexivity.
Qed.

(** The same for every function without descriptors and every non-empty
    argument list. *)
Lemma check_arguments_no_descriptors (f : function) (args : list value) :
  arg_types f = [] -> args <> [] ->
  check_arguments f args = Raises IndexError.
Proof.
  intros Hnil Hargs. unfold check_arguments. rewrite Hnil.
  destruct args as [|a rest]; [contradiction|].
  rewrite len_cons. change (len (@nil descriptor)) with 0.
  pose proof (len_nonneg rest).
  destruct (1 + len rest =? 0) eqn:E; [apply Z.eqb_eq in E; lia|].
  reflexivity.
Qed.

(** ** The variadic tail *)

(** C1: the function declared with [[int, None]] and called with
    [(1, 2, 3)] is accepted neither by [check_arguments] nor by
    [get_arguments_for_execution]: position 0 is checked against [int], and
    at position 1 both evaluate [len(function.arg_types > 1)] and raise the
    [TypeError] of taking the length of a boolean, so positions 1 and 2 are
    never checked against [int]. *)
Theorem variadic_call_raises_TypeError (worker : Worker) (s : world) :
  arg_types Examples.total = [Some T_int; None] /\
  expected_type Examples.total 0 = Returns (Some T_int) /\
  check_arguments Examples.total [VInt 1; VInt 2; VInt 3]
    = Raises (TypeError "object of type 'bool' has no len()") /\
  get_arguments_for_execution Examples.total [VInt 1; VInt 2; VInt 3] worker s
    = (Raises (TypeError "object of type 'bool' has no len()"), s).
Proof.
  repeat split; reflexivity.
Qed.

(** The same for every function with a trailing sentinel: no argument list
    that reaches the sentinel's position is accepted at call time. *)
Lemma check_arguments_variadic_tail_refused (f : function) (args : list value) :
  last (arg_types f) = Some None ->
  len (arg_types f) <= len args ->
  check_arguments f args <> Returns tt.
Proof.
  intros Hlast Hlen Hret.
  rewrite (check_arguments_counts f args None Hlast) in Hret.
  rewrite andb_false_r in Hret.
  destruct (len args <? len (arg_types f) - 1) eqn:E; [apply Z.ltb_lt in E; lia|].
  simpl in Hret.
  assert (Hpos : (0 < length (arg_types f))%nat).
  { destruct (arg_types f); [discriminate | simpl; lia]. }
  destruct (lookup_lt_is_Some_2 args (length (arg_types f) - 1)) as [arg Harg].
  { unfold len in Hlen. lia. }
  destruct (proj1 (check_arguments_loop_Returns f args 0) Hret _ _ Harg)
    as (d & Hd & _).
  rewrite (expected_type_variadic_tail f _ Hlast) in Hd; [discriminate|].
  unfold len. lia.
Qed.

(** ** Object references at call time *)

(** A type mismatch raised by the loop of [check_arguments] names the
    position of an argument that is not an object reference. *)
Lemma check_arguments_loop_mismatch (f : function) (args : list value) (i0 i : Z)
    (name : string) (actual : pytype) (expected : descriptor) :
  check_arguments_loop f i0 args = Raises (TypeMismatchError i name actual expected) ->
  exists (k : nat) (arg : value),
    i = i0 + Z.of_nat k /\ args !! k = Some arg /\
    is_ObjRef arg = false /\ actual = type_of arg /\
    isinstance arg expected = Returns false.
Proof.
  revert i0. induction args as [|a rest IH]; intros i0; simpl; [discriminate|].
  destruct (expected_type f i0) as [d|e|w] eqn:Hd; simpl.
  - destruct (is_ObjRef a) eqn:Href; simpl.
    + intros H. destruct (IH _ H) as (k & arg & -> & Hk & Hrest).
      exists (S k), arg. split; [lia|]. split; [exact Hk | exact Hrest].
    + destruct (isinstance a d) as [[|]|e|w] eqn:Hinst; simpl.
      * intros H. destruct (IH _ H) as (k & arg & -> & Hk & Hrest).
        exists (S k), arg. split; [lia|]. split; [exact Hk | exact Hrest].
      * intros [= <- _ <- <-]. exists 0%nat, a.
        repeat split; [lia | exact Href | exact Hinst].
      * intros Habs. destruct d; simpl in Hinst; [discriminate|].
        injection Hinst as <-. discriminate.
      * destruct d; discriminate.
  - intros [= ->]. destruct (expected_type_Raises f i0 _ Hd) as [H|[H|H]]; discriminate.
  - discriminate.
Qed.

(** ** Argument resolution: what is returned *)

Lemma resolves_to_objstore (s1 s2 : world) (arg v : value) :
  objstore s1 = objstore s2 -> resolves_to s1 arg v -> resolves_to s2 arg v.
Proof.
  intros Heq. destruct arg; simpl; try (intros H; exact H).
  rewrite Heq. intros H; exact H.
Qed.

Lemma fetch_argument_Returns (worker : Worker) (arg v : value) (s s' : world) :
  fetch_argument worker arg s = (Returns v, s') ->
  objstore s' = objstore s /\ resolves_to s arg v.
Proof.
  destruct arg; simpl; try (intros [= <- <-]; split; reflexivity).
  apply get_object_Returns.
Qed.

(** A pass of the loop that hands a value to [arguments.append] leaves the
    store as it was; the value is the resolved argument and an instance of
    the type found for the position. *)
Lemma get_arguments_step_Returns (f : function) (worker : Worker) (i : Z)
    (arg v : value) (s s' : world) :
  get_arguments_step f worker i arg s = (Returns v, s') ->
  objstore s' = objstore s /\ resolves_to s arg v /\
  exists t, expected_type f i = Returns (Some t) /\ issubclass (type_of v) t = true.
Proof.
  unfold get_arguments_step, bind, lift.
  destruct (expected_type f i) as [d|e|w]; [|discriminate|discriminate].
  destruct (fetch_argument worker arg s) as [[v'|e|w] s1] eqn:Hfetch;
    [|discriminate|discriminate].
  apply fetch_argument_Returns in Hfetch as [Hstore Hres].
  destruct d as [t|]; simpl; [|discriminate].
  destruct (issubclass (type_of v') t) eqn:Hsub; simpl; [|discriminate].
  intros [= <- <-]. split; [exact Hstore|]. split; [exact Hres|].
  exists t. split; [reflexivity | exact Hsub].
Qed.

Lemma get_arguments_loop_Returns (f : function) (worker : Worker) (args : list value) :
  forall (i : Z) (arguments vs : list value) (s s' : world),
    get_arguments_loop f worker i args arguments s = (Returns vs, s') ->
    objstore s' = objstore s /\
    exists vs', vs = arguments ++ vs' /\ Forall2 (resolves_to s) args vs'.
Proof.
  induction args as [|a rest IH]; intros i arguments vs s s'; simpl.
  - intros [= <- <-]. split; [reflexivity|].
    exists []. split; [symmetry; apply app_nil_r | constructor].
  - unfold bind at 1.
    destruct (get_arguments_step f worker i a s) as [[v|e|w] s1] eqn:Hstep;
      [|discriminate|discriminate].
    apply get_arguments_step_Returns in Hstep as (Hstore1 & Hres & _).
    intros Hrest. apply IH in Hrest as (Hstore & vs' & -> & Hall).
    split; [congruence|].
    exists (v :: vs'). split; [rewrite <- app_assoc; reflexivity|].
    constructor; [exact Hres|].
    eapply Forall2_impl; [exact Hall|].
    intros x y. apply resolves_to_objstore, Hstore1.
Qed.

(** The loop over a concatenation runs the loop over the first part and
    continues, from the position and the list reached, over the second. *)
Lemma get_arguments_loop_app (f : function) (worker : Worker) (args1 args2 : list value) :
  forall (i : Z) (arguments : list value) (s : world),
    get_arguments_loop f worker i (args1 ++ args2) arguments s =
    bind (get_arguments_loop f worker i args1 arguments)
         (fun arguments' =>
            get_arguments_loop f worker (i + len args1) args2 arguments') s.
Proof.
  induction args1 as [|a rest IH]; intros i arguments s; simpl.
  - unfold bind, ret. change (len (@nil value)) with 0. rewrite Z.add_0_r. reflexivity.
  - unfold bind.
    destruct (get_arguments_step f worker i a s) as [[v|e|w] s1]; try reflexivity.
    rewrite IH. unfold bind. rewrite len_cons.
    replace (i + 1 + len rest) with (i + (1 + len rest)) by lia.
    reflexivity.
Qed.

(** An argument passed by value is compared with the type found for its
    position; the world is not touched. *)
Lemma get_arguments_step_by_value (f : function) (worker : Worker) (i : Z)
    (arg : value) (t : pytype) (s : world) :
  is_ObjRef arg = false ->
  expected_type f i = Returns (Some t) ->
  get_arguments_step f worker i arg s =
    (if issubclass (type_of arg) t then Returns arg
     else Raises (TypeMismatchError i (__name__ f) (type_of arg) (Some t)), s).
Proof.
  intros Href Hexp. unfold get_arguments_step, bind, lift. rewrite Hexp.
  destruct arg; simpl in *; try discriminate;
    match goal with |- context [issubclass ?c t] => destruct (issubclass c t) end;
    reflexivity.
Qed.

(** An object reference is read from the store first, and what was read is
    compared with the type found for the position. *)
Lemma get_arguments_step_reference (f : function) (worker : Worker) (i : Z)
    (r : objref) (c : capsule) (t : pytype) (s : world) :
  is_Some (handle worker) ->
  objstore s !! r = Some c ->
  expected_type f i = Returns (Some t) ->
  get_arguments_step f worker i (VObjRef r) s =
    (if issubclass (type_of (deserialize c)) t then Returns (deserialize c)
     else Raises (TypeMismatchError i (__name__ f) (type_of (deserialize c)) (Some t)),
     record_event s (EvGetObject r)).
Proof.
  intros [h Hh] Hc Hexp. unfold get_arguments_step, bind, lift. rewrite Hexp. simpl.
  rewrite (get_object_present worker h r c s Hh Hc). simpl.
  destruct (issubclass (type_of (deserialize c)) t); reflexivity.
Qed.

(** A pass that raises ends the loop with that error. *)
Lemma get_arguments_loop_step_raises (f : function) (worker : Worker) (i : Z)
    (arg : value) (rest arguments : list value) (e : exn) (s s' : world) :
  get_arguments_step f worker i arg s = (Raises e, s') ->
  get_arguments_loop f worker i (arg :: rest) arguments s = (Raises e, s').
Proof.
  intros Hstep. simpl. unfold bind. rewrite Hstep. reflexivity.
Qed.

(** The loop stops at position [k] with what the pass at [k] raises, when
    the arguments before [k] resolve. *)
Lemma get_arguments_stops_at (f : function) (worker : Worker) (args : list value)
    (k : nat) (arg : value) (vs : list value) (e : exn) (s s1 s2 : world) :
  args !! k = Some arg ->
  get_arguments_for_execution f (take k args) worker s = (Returns vs, s1) ->
  get_arguments_step f worker (Z.of_nat k) arg s1 = (Raises e, s2) ->
  get_arguments_for_execution f args worker s = (Raises e, s2).
Proof.
  intros Harg Hprefix Hstep. unfold get_arguments_for_execution in *.
  rewrite <- (take_drop_middle args k arg Harg).
  rewrite get_arguments_loop_app. unfold bind.
  rewrite Hprefix.
  replace (0 + len (take k args)) with (Z.of_nat k)
    by (unfold len; rewrite length_take; apply lookup_lt_Some in Harg; lia).
  apply get_arguments_loop_step_raises, Hstep.
Qed.

(** The loop returns when every argument resolves to an instance of the
    type found for its position. *)
Lemma get_arguments_loop_all_resolve (f : function) (worker : Worker) (args : list value) :
  is_Some (handle worker) ->
  forall (i : Z) (arguments : list value) (s : world),
    (forall (k : nat) (arg : value), args !! k = Some arg ->
       exists t v, expected_type f (i + Z.of_nat k) = Returns (Some t) /\
                   resolves_to s arg v /\ issubclass (type_of v) t = true) ->
    exists vs s', get_arguments_loop f worker i args arguments s = (Returns vs, s').
Proof.
  intros Hh. induction args as [|a rest IH]; intros i arguments s Hall; simpl.
  - eexists _, _. reflexivity.
  - destruct (Hall 0%nat a eq_refl) as (t & v & Ht & Hres & Hsub).
    rewrite Z.add_0_r in Ht.
    assert (Hstep : exists s1, get_arguments_step f worker i a s = (Returns v, s1) /\
                               objstore s1 = objstore s).
    { destruct (is_ObjRef a) eqn:Href.
      - destruct a; try discriminate. destruct Hres as (c & Hc & ->).
        rewrite (get_arguments_step_reference f worker i r c t s Hh Hc Ht), Hsub.
        eexists. split; reflexivity.
      - assert (v = a) by (destruct a; try discriminate; exact Hres). subst v.
        rewrite (get_arguments_step_by_value f worker i a t s Href Ht), Hsub.
        eexists. split; reflexivity. }
    destruct Hstep as (s1 & Hstep & Hstore).
    unfold bind. rewrite Hstep. apply IH.
    intros k arg Hk. destruct (Hall (S k) arg Hk) as (t' & v' & Ht' & Hres' & Hsub').
    exists t', v'. split; [|split; [|exact Hsub']].
    + replace (i + 1 + Z.of_nat k) with (i + Z.of_nat (S k)) by lia. exact Ht'.
    + apply (resolves_to_objstore s s1); [symmetry; exact Hstore | exact Hres'].
Qed.

(** When the loop returns, a type was found for every position. *)
Lemma get_arguments_loop_Returns_typed (f : function) (worker : Worker) (args : list value) :
  forall (i : Z) (arguments vs : list value) (s s' : world),
    get_arguments_loop f worker i args arguments s = (Returns vs, s') ->
    forall (k : nat), (k < length args)%nat ->
      exists t, expected_type f (i + Z.of_nat k) = Returns (Some t).
Proof.
  induction args as [|a rest IH]; intros i arguments vs s s'; simpl.
  - intros _ k Hk. lia.
  - unfold bind at 1.
    destruct (get_arguments_step f worker i a s) as [[v|e|w] s1] eqn:Hstep;
      [|discriminate|discriminate].
    apply get_arguments_step_Returns in Hstep as (_ & _ & t & Ht & _).
    intros Hrest [|k] Hk.
    + exists t. rewrite Z.add_0_r. exact Ht.
    + replace (i + Z.of_nat (S k)) with (i + 1 + Z.of_nat k) by lia.
      apply (IH _ _ _ _ _ Hrest). lia.
Qed.

(** With a trailing sentinel, resolution never returns for an argument
    list that reaches the sentinel's position. *)
Lemma get_arguments_variadic_tail_refused (f : function) (args vs : list value)
    (worker : Worker) (s s' : world) :
  last (arg_types f) = Some None ->
  len (arg_types f) <= len args ->
  get_arguments_for_execution f args worker s <> (Returns vs, s').
Proof.
  intros Hlast Hlen Hret. unfold get_arguments_for_execution in Hret.
  assert (Hpos : (0 < length (arg_types f))%nat).
  { destruct (arg_types f); [discriminate | simpl; lia]. }
  destruct (get_arguments_loop_Returns_typed f worker args 0 [] vs s s' Hret
              (length (arg_types f) - 1)) as [t Ht].
  { unfold len in Hlen. lia. }
  rewrite (expected_type_variadic_tail f _ Hlast) in Ht; [discriminate|].
  unfold len. lia.
Qed.

(** C7: whenever [get_arguments_for_execution] returns, the list it
    returns is as long as the argument list and in the same order; at every
    position an object reference has been replaced by the deserialized
    capsule the object store holds for it, and any other argument is there
    unchanged; the store itself is as before.  And it does return, on a
    worker that holds a handle, when every argument resolves to an instance
    of the type declared at its position. *)
Theorem get_arguments_for_execution_resolves (f : function) (args : list value)
    (worker : Worker) (s : world) :
  (forall (arguments : list value) (s' : world),
     get_arguments_for_execution f args worker s = (Returns arguments, s') ->
     length arguments = length args /\
     Forall2 (resolves_to s) args arguments /\
     (forall (i : nat) (arg : value), args !! i = Some arg ->
        match arg with
        | VObjRef r =>
            exists c, objstore s !! r = Some c /\ arguments !! i = Some (deserialize c)
        | _ => arguments !! i = Some arg
        end) /\
     objstore s' = objstore s) /\
  (is_Some (handle worker) ->
   (forall (k : nat) (arg : value), args !! k = Some arg ->
      exists t v, arg_types f !! k = Some (Some t) /\
                  resolves_to s arg v /\ issubclass (type_of v) t = true) ->
   exists arguments s',
     get_arguments_for_execution f args worker s = (Returns arguments, s')).
Proof.
  unfold get_arguments_for_execution. split.
  - intros arguments s' Hrun.
    apply get_arguments_loop_Returns in Hrun as (Hstore & vs' & -> & Hall).
    simpl. split; [symmetry; eapply Forall2_length; exact Hall|].
    split; [exact Hall|]. split; [|exact Hstore].
    intros i arg Harg.
    destruct (Forall2_lookup_l _ _ _ _ _ Hall Harg) as (v & Hv & Hres).
    destruct arg; simpl in Hres; try (subst v; exact Hv).
    destruct Hres as (c & Hc & ->). exists c. split; [exact Hc | exact Hv].
  - intros Hh Hall. apply (get_arguments_loop_all_resolve f worker args Hh).
    intros k arg Hk. destruct (Hall k arg Hk) as (t & v & Ht & Hres & Hsub).
    exists t, v. split; [|split; assumption].
    rewrite Z.add_0_l. apply expected_type_declared, Ht.
Qed.

(** C7, at a concrete input: [label(1, <ref 1>)] with ["a"] stored under
    reference 1. *)
Lemma get_arguments_for_execution_resolves_witness :
  length [VInt 1; VStr "a"] = length [VInt 1; VObjRef 1%nat] /\
  Forall2 (resolves_to Examples.world_with_str)
          [VInt 1; VObjRef 1%nat] [VInt 1; VStr "a"].
Proof.
  destruct (get_arguments_for_execution_resolves
              Examples.label [VInt 1; VObjRef 1%nat] Examples.connected_worker
              Examples.world_with_str) as [Hprops _].
  destruct (Hprops [VInt 1; VStr "a"]
                   (record_event Examples.world_with_str (EvGetObject 1%nat)))
    as (Hlen & Hall & _).
  - vm_compute. reflexivity.
  - split; [exact Hlen | exact Hall].
Defined.

(** ** Output storage: what is written *)

Lemma py_getitem_elements (v o : value) (k : nat) :
  elements v !! k = Some o -> py_getitem v (Z.of_nat k) = Returns o.
Proof.
  destruct v; simpl; try discriminate.
  - rewrite list_lookup_fmap.
    destruct (list_ascii_of_string s !! k) as [c|] eqn:Hc; [|discriminate].
    intros [= <-]. rewrite (getitem_nonneg _ _ _ Hc). reflexivity.
  - apply getitem_nonneg.
  - apply getitem_nonneg.
Qed.

Lemma length_list_ascii_of_string (s : string) :
  length (list_ascii_of_string s) = String.length s.
Proof. induction s as [|c s IH]; simpl; [reflexivity | rewrite IH; reflexivity]. Qed.

Lemma py_len_elements (v : value) (n : Z) :
  py_len v = Returns n -> len (elements v) = n.
Proof.
  destruct v; simpl; try discriminate; intros [= <-]; try reflexivity.
  unfold len. rewrite length_map, length_list_ascii_of_string. reflexivity.
Qed.

(** The loop writes element [n], [n+1], ... of [outputs] to the references
    left, one [put_object] each, as long as [outputs] has that many
    elements. *)
Lemma store_outputs_loop_writes (worker : Worker) (h : handle_t) (outputs : value)
    (rest : list objref) :
  handle worker = Some h ->
  forall (n : nat) (s : world),
    (n + length rest <= length (elements outputs))%nat ->
    store_outputs_loop worker outputs (Z.of_nat n) rest s =
      (Returns tt,
       World (write_all (objstore s) rest (drop n (elements outputs)))
             (registered s) (next_objref s) (task_queue s)
             (trace s ++ put_events rest (drop n (elements outputs)))).
Proof.
  intros Hh. induction rest as [|r rest IH]; intros n s Hlen; simpl.
  - unfold ret, put_events. simpl. rewrite app_nil_r. destruct s; reflexivity.
  - simpl in Hlen.
    destruct (lookup_lt_is_Some_2 (elements outputs) n) as [o Ho]; [lia|].
    rewrite (drop_S _ _ _ Ho). unfold bind, lift.
    rewrite (py_getitem_elements _ _ _ Ho).
    rewrite (put_object_connected worker h r o s Hh).
    replace (Z.of_nat n + 1) with (Z.of_nat (S n)) by lia.
    rewrite IH by (simpl; lia). simpl.
    unfold put_events. simpl. rewrite <- app_assoc. reflexivity.
Qed.

Lemma write_all_lookup (objrefs : list objref) :
  forall (outs : list value) (m : gmap objref capsule) (k : nat) (r : objref) (o : value),
    NoDup objrefs ->
    objrefs !! k = Some r -> outs !! k = Some o ->
    write_all m objrefs outs !! r = Some (serialize o).
Proof.
  assert (Hframe : forall (rs : list objref) (outs : list value)
                          (m : gmap objref capsule) (r : objref),
             r ∉ rs -> write_all m rs outs !! r = m !! r).
  { induction rs as [|r' rs IH]; intros outs m r Hnotin; simpl; [reflexivity|].
    destruct outs as [|o outs]; [reflexivity|].
    apply not_elem_of_cons in Hnotin as [Hne Hnotin].
    rewrite IH by exact Hnotin. apply lookup_insert_ne. congruence. }
  induction objrefs as [|r' objrefs IH]; intros outs m k r o Hnodup Hr Ho.
  - discriminate.
  - apply NoDup_cons in Hnodup as [Hnotin Hnodup].
    destruct outs as [|o' outs]; [destruct k; discriminate|].
    destruct k as [|k]; simpl in *.
    + injection Hr as ->. injection Ho as ->.
      rewrite Hframe by exact Hnotin. apply lookup_insert_eq.
    + eapply IH; eassumption.
Qed.

(** C6: on a worker that holds a handle, [store_outputs_in_objstore]
    returns after these writes and no others.  With a single output
    reference the whole result is serialized and written under it, whatever
    the result is made of.  With any other number [N] of references and a
    result of at least [N] elements, the library is called [N] more times,
    the [k]-th of these calls being the write of element [k] of the result
    under reference [k]; so every reference of the list is written once,
    and when the references are pairwise distinct the store afterwards
    holds element [k] under reference [k]. *)
Theorem store_outputs_writes_each_reference (objrefs : list objref) (outputs : value)
    (worker : Worker) (s : world) :
  is_Some (handle worker) ->
  (forall r, objrefs = [r] ->
     store_outputs_in_objstore objrefs outputs worker s =
       (Returns tt,
        World (<[r := serialize outputs]> (objstore s)) (registered s)
              (next_objref s) (task_queue s)
              (trace s ++ [EvPutObject r (serialize outputs)]))) /\
  (len objrefs <> 1 ->
   forall n, py_len outputs = Returns n -> len objrefs <= n ->
     exists s',
       store_outputs_in_objstore objrefs outputs worker s = (Returns tt, s') /\
       trace s' = trace s ++ put_events objrefs (elements outputs) /\
       length (trace s') = (length (trace s) + length objrefs)%nat /\
       (forall (k : nat) (r : objref), objrefs !! k = Some r ->
          exists o, py_getitem outputs (Z.of_nat k) = Returns o /\
                    trace s' !! (length (trace s) + k)%nat
                      = Some (EvPutObject r (serialize o)) /\
                    (NoDup objrefs -> objstore s' !! r = Some (serialize o)))).
Proof.
  intros [h Hh]. split.
  - intros r ->. unfold store_outputs_in_objstore. simpl. unfold bind, lift. simpl.
    apply (put_object_connected worker h r outputs s Hh).
  - intros Hne n Hn Hle.
    apply py_len_elements in Hn.
    assert (Hlen : (length objrefs <= length (elements outputs))%nat)
      by (unfold len in *; lia).
    unfold store_outputs_in_objstore.
    apply Z.eqb_neq in Hne. rewrite Hne.
    pose proof (store_outputs_loop_writes worker h outputs objrefs Hh 0%nat s) as Hloop.
    change (Z.of_nat 0) with 0 in Hloop. rewrite drop_0 in Hloop.
    rewrite Hloop by exact Hlen.
    eexists. split; [reflexivity|]. simpl.
    split; [reflexivity|].
    assert (Hev : length (put_events objrefs (elements outputs)) = length objrefs).
    { unfold put_events. rewrite length_zip_with. lia. }
    split; [rewrite length_app, Hev; reflexivity|].
    intros k r Hr.
    pose proof (lookup_lt_Some _ _ _ Hr) as Hk.
    destruct (lookup_lt_is_Some_2 (elements outputs) k) as [o Ho]; [lia|].
    exists o. split; [apply py_getitem_elements, Ho|]. split.
    + rewrite lookup_app_r by lia.
      replace (length (trace s) + k - length (trace s))%nat with k by lia.
      unfold put_events. rewrite lookup_zip_with, Hr. simpl. rewrite Ho. reflexivity.
    + intros Hnodup. eapply write_all_lookup; eassumption.
Qed.

Lemma store_outputs_writes_each_reference_witness :
  store_outputs_in_objstore [7%nat] (VTuple [VInt 1; VInt 2])
                            Examples.connected_worker Examples.empty_world =
    (Returns tt,
     World (<[7%nat := serialize (VTuple [VInt 1; VInt 2])]> ∅) ∅ 0%nat []
           [EvPutObject 7%nat (serialize (VTuple [VInt 1; VInt 2]))]) /\
  exists s',
    store_outputs_in_objstore [4%nat; 5%nat] (VTuple [VInt 1; VInt 2])
                              Examples.connected_worker Examples.empty_world
      = (Returns tt, s') /\
    trace s' = [EvPutObject 4%nat (serialize (VInt 1));
                EvPutObject 5%nat (serialize (VInt 2))].
Proof.
  split.
  - apply (store_outputs_writes_each_reference [7%nat] (VTuple [VInt 1; VInt 2])
             Examples.connected_worker Examples.empty_world).
    + eexists. reflexivity.
    + reflexivity.
  - destruct (store_outputs_writes_each_reference [4%nat; 5%nat] (VTuple [VInt 1; VInt 2])
                Examples.connected_worker Examples.empty_world) as [_ Hmany].
    + eexists. reflexivity.
    + destruct (Hmany ltac:(discriminate) 2 eq_refl ltac:(reflexivity))
        as (s' & Hrun & Htrace & _).
      exists s'. split; [exact Hrun | exact Htrace].
Defined.

(** A result with fewer elements than there are references stops the loop
    with an [IndexError] after the writes that could be made. *)
Example store_outputs_short_result :
  store_outputs_in_objstore [4%nat; 5%nat] (VTuple [VInt 1])
                            Examples.connected_worker Examples.empty_world =
    (Raises IndexError,
     World (<[4%nat := serialize (VInt 1)]> ∅) ∅ 0%nat []
           [EvPutObject 4%nat (serialize (VInt 1))]).
Proof. reflexivity. Qed.

(** ** The call proxy *)

(** Registration tells the scheduler the declared return arity. *)
Lemma register_function_announces_arity (self self' : Worker) (f : function) (s s' : world) :
  register_function self f s = (Returns self', s') ->
  registered s' !! func_name f = Some (len (return_types f)).
Proof.
  unfold register_function, lib.register_function, with_handle, bind, log, ret, raise.
  destruct (handle self); simpl; [|discriminate].
  intros [= <- <-]. simpl. apply lookup_insert_eq.
Qed.

(** A dispatch that returns hands out one fresh reference per return value
    the scheduler was told of. *)
Lemma remote_call_Returns (self : Worker) (name : string) (args : list value)
    (objrefs : list objref) (s s' : world) :
  remote_call self name args s = (Returns objrefs, s') ->
  exists n, registered s !! name = Some n /\
            objrefs = seq (next_objref s) (Z.to_nat n).
Proof.
  unfold remote_call, lib.remote_call, lib.serialize_call, with_handle, bind, log, ret, raise.
  destruct (handle self); simpl; [|discriminate].
  destruct (registered s !! name) as [n|] eqn:Hn; [|discriminate].
  intros [= <- <-]. exists n. split; reflexivity.
Qed.

Lemma remote_call_registered (self : Worker) (name : string) (args : list value)
    (n : Z) (s : world) :
  is_Some (handle self) ->
  registered s !! name = Some n ->
  exists s', remote_call self name args s
             = (Returns (seq (next_objref s) (Z.to_nat n)), s').
Proof.
  intros [h Hh] Hn.
  unfold remote_call, lib.remote_call, lib.serialize_call, with_handle, bind, log, ret.
  rewrite Hh. simpl. rewrite Hn. eexists. reflexivity.
Qed.

(** C4: for a function the scheduler knows under its declared return arity
    [N], a call whose arguments pass the check, made on a worker that holds
    a handle, returns; and whenever the proxy returns, it returns a bare
    object reference when [N = 1], and a list of exactly [N] pairwise
    distinct object references when [N > 1]. *)
Theorem func_call_returns_declared_arity (worker : Worker) (f : function)
    (args : list value) (s : world) :
  registered s !! func_name f = Some (len (return_types f)) ->
  (check_arguments f args = Returns tt -> is_Some (handle worker) ->
   exists v s', func_call worker f args s = (Returns v, s')) /\
  (forall v s', func_call worker f args s = (Returns v, s') ->
     (len (return_types f) = 1 -> exists r, v = VObjRef r) /\
     (1 < len (return_types f) ->
      exists objrefs, v = VList (map VObjRef objrefs) /\
                      len objrefs = len (return_types f) /\ NoDup objrefs)).
Proof.
  intros Hreg. split.
  - intros Hcheck Hh.
    destruct (remote_call_registered worker (func_name f) args _ s Hh Hreg) as [s' Hcall].
    unfold func_call, bind, lift. rewrite Hcheck, Hcall.
    clear Hcall. generalize (seq (next_objref s) (Z.to_nat (len (return_types f)))).
    intros objrefs.
    destruct (len objrefs =? 1) eqn:E; [|eexists _, _; reflexivity].
    apply Z.eqb_eq in E.
    destruct objrefs as [|r [|r' rest]]; unfold len in E; simpl in E; try lia.
    eexists _, _. reflexivity.
  - intros v s'. unfold func_call, bind at 1, lift.
    destruct (check_arguments f args) as [[]|e|w]; [|discriminate|discriminate].
    unfold bind at 1.
    destruct (remote_call worker (func_name f) args s) as [[objrefs|e|w] s1] eqn:Hcall;
      [|discriminate|discriminate].
    apply remote_call_Returns in Hcall as (n & Hn & Hrefs).
    rewrite Hreg in Hn. injection Hn as <-.
    assert (Hlen : len objrefs = len (return_types f)).
    { rewrite Hrefs. unfold len. rewrite length_seq. lia. }
    rewrite Hlen.
    destruct (len (return_types f) =? 1) eqn:E.
    + apply Z.eqb_eq in E.
      destruct objrefs as [|r [|r' rest]]; unfold len in Hlen, E; simpl in Hlen; try lia.
      unfold bind, lift, ret. simpl. intros [= <- <-].
      split; [intros _; exists r; reflexivity | intros Habs; unfold len in Habs; lia].
    + apply Z.eqb_neq in E. unfold ret. intros [= <- <-].
      split; [intros Habs; contradiction|].
      intros _. exists objrefs. split; [reflexivity|]. split; [exact Hlen|].
      rewrite Hrefs. apply NoDup_seq.
Qed.

Lemma func_call_returns_declared_arity_witness :
  (exists s', func_call Examples.connected_worker Examples.add [VInt 2; VInt 3]
                        Examples.world_registered = (Returns (VObjRef 0%nat), s')) /\
  (exists objrefs, VList [VObjRef 0%nat; VObjRef 1%nat] = VList (map VObjRef objrefs) /\
                   len objrefs = 2).
Proof.
  split.
  - destruct (func_call_returns_declared_arity
                Examples.connected_worker Examples.add [VInt 2; VInt 3]
                Examples.world_registered) as [Hruns Hshape].
    + vm_compute. reflexivity.
    + destruct Hruns as (v & s' & Hrun).
      * reflexivity.
      * eexists. reflexivity.
      * destruct (Hshape v s' Hrun) as [Hone _].
        destruct (Hone eq_refl) as [r ->].
        exists s'. rewrite Hrun. do 2 f_equal.
        revert Hrun. vm_compute. intros [= <- _]. reflexivity.
  - destruct (func_call_returns_declared_arity
                Examples.connected_worker Examples.split [VStr "ab"]
                Examples.world_registered) as [_ Hshape].
    + vm_compute. reflexivity.
    + destruct (Hshape (VList [VObjRef 0%nat; VObjRef 1%nat])
                       (snd (func_call Examples.connected_worker Examples.split
                                       [VStr "ab"] Examples.world_registered)))
        as [_ Hmany].
      * vm_compute. reflexivity.
      * destruct (Hmany ltac:(reflexivity)) as (objrefs & Hv & Hlen & _).
        exists objrefs. split; [exact Hv | exact Hlen].
Defined.

(** ** The assertion in the resolution loop *)

(** Every sample value resolves to an instance of its type in the sample
    world. *)
Lemma sample_value_resolves (t : pytype) :
  exists v, resolves_to Examples.sample_world (Examples.sample_value t) v /\
            issubclass (type_of v) t = true.
Proof.
  destruct t; try (eexists; split; reflexivity).
  exists (VObjRef 0%nat). split; [|reflexivity].
  exists (serialize (VObjRef 0%nat)). split; reflexivity.
Qed.

(** C9: for a function whose last descriptor is a type object (not the
    sentinel), [get_arguments_for_execution] makes no count check: on every
    argument list longer than the descriptor list whose arguments at the
    declared positions resolve, the loop goes on to the first extra
    position and raises the assertion error "This code should be
    unreachable.", where [check_arguments] refuses the same list with the
    arity error.  Such a list exists for every function all of whose
    descriptors are type objects. *)
Theorem unreachable_assertion_is_reached (f : function) (t : pytype) :
  last (arg_types f) = Some (Some t) ->
  (forall (args vs : list value) (worker : Worker) (s s' : world),
     len (arg_types f) < len args ->
     get_arguments_for_execution f (take (length (arg_types f)) args) worker s
       = (Returns vs, s') ->
     get_arguments_for_execution f args worker s
       = (Raises (AssertionError "This code should be unreachable."), s') /\
     check_arguments f args
       = Raises (ArityError (__name__ f) (len (arg_types f)) (len args))) /\
  (forall ts : list pytype, arg_types f = map Some ts ->
     exists (args : list value) (worker : Worker) (s s' : world),
       len (arg_types f) < len args /\
       get_arguments_for_execution f args worker s
         = (Raises (AssertionError "This code should be unreachable."), s')).
Proof.
  intros Hlast.
  assert (Huniv : forall (args vs : list value) (worker : Worker) (s s' : world),
     len (arg_types f) < len args ->
     get_arguments_for_execution f (take (length (arg_types f)) args) worker s
       = (Returns vs, s') ->
     get_arguments_for_execution f args worker s
       = (Raises (AssertionError "This code should be unreachable."), s')).
  { intros args vs worker s s' Hlen Hprefix.
    destruct (lookup_lt_is_Some_2 args (length (arg_types f))) as [arg Harg];
      [unfold len in Hlen; lia|].
    apply (get_arguments_stops_at f worker args _ arg vs _ s s' s' Harg Hprefix).
    unfold get_arguments_step, bind, lift.
    rewrite (expected_type_beyond f _ t Hlast); [reflexivity|].
    unfold len. lia. }
  split.
  - intros args vs worker s s' Hlen Hprefix. split.
    + exact (Huniv args vs worker s s' Hlen Hprefix).
    + apply (check_arguments_arity f args t Hlast). lia.
  - intros ts Hts.
    destruct (get_arguments_loop_all_resolve f Examples.connected_worker
                (map Examples.sample_value ts) (mk_is_Some _ _ eq_refl)
                0 [] Examples.sample_world)
      as (vs & s' & Hrun).
    { intros k arg Hk. rewrite list_lookup_fmap in Hk.
      destruct (ts !! k) as [t'|] eqn:Ht'; [|discriminate]. injection Hk as <-.
      destruct (sample_value_resolves t') as (v & Hres & Hsub).
      exists t', v. split; [|split; assumption].
      rewrite Z.add_0_l. apply expected_type_declared.
      rewrite Hts, list_lookup_fmap, Ht'. reflexivity. }
    exists (map Examples.sample_value ts ++ [VNone]),
           Examples.connected_worker, Examples.sample_world, s'.
    assert (Hlen : len (arg_types f) < len (map Examples.sample_value ts ++ [VNone])).
    { rewrite Hts. unfold len. rewrite length_app, !length_map. simpl. lia. }
    split; [exact Hlen|].
    apply (Huniv _ vs _ _ _ Hlen).
    rewrite Hts, length_map.
    rewrite <- (length_map Examples.sample_value ts), take_app_length.
    exact Hrun.
Qed.

Lemma unreachable_assertion_is_reached_witness :
  get_arguments_for_execution Examples.label [VInt 1; VStr "a"; VInt 3]
                              Examples.connected_worker Examples.empty_world
    = (Raises (AssertionError "This code should be unreachable."), Examples.empty_world) /\
  check_arguments Examples.label [VInt 1; VStr "a"; VInt 3]
    = Raises (ArityError "example.label" 2 3).
Proof.
  destruct (unreachable_assertion_is_reached Examples.label T_str eq_refl) as [Huniv _].
  apply (Huniv [VInt 1; VStr "a"; VInt 3] [VInt 1; VStr "a"]
               Examples.connected_worker Examples.empty_world Examples.empty_world).
  - reflexivity.
  - reflexivity.
Defined.

(** ** Object references: deferred at call time, checked at resolution *)

(** Acceptance at call time is the two count tests and then the loop; the
    count tests look at the number of arguments only. *)
Lemma check_arguments_same_length (f : function) (args args' : list value) :
  length args' = length args ->
  check_arguments f args = Returns tt ->
  check_arguments_loop f 0 args' = Returns tt ->
  check_arguments f args' = Returns tt.
Proof.
  intros Hlen. unfold check_arguments, len. rewrite Hlen.
  repeat match goal with
         | |- context [bind_result ?m _] =>
             destruct m as [[|]|?|?]; simpl; try discriminate
         end.
  intros _ H. exact H.
Qed.

Lemma check_arguments_Returns_loop (f : function) (args : list value) :
  check_arguments f args = Returns tt ->
  check_arguments_loop f 0 args = Returns tt.
Proof.
  unfold check_arguments.
  repeat match goal with
         | |- context [bind_result ?m _] =>
             destruct m as [[|]|?|?]; simpl; try discriminate
         end.
  intros H. exact H.
Qed.

(** Replacing any argument of an accepted call by an object reference
    leaves the call accepted, whatever descriptor its position has. *)
Lemma check_arguments_accepts_reference (f : function) (args : list value)
    (k : nat) (r : objref) :
  check_arguments f args = Returns tt ->
  check_arguments f (<[k := VObjRef r]> args) = Returns tt.
Proof.
  intros Hok.
  apply (check_arguments_same_length f args); [apply length_insert | exact Hok |].
  apply check_arguments_Returns_loop in Hok.
  apply check_arguments_loop_Returns. intros j arg Hj.
  pose proof (proj1 (check_arguments_loop_Returns f args 0) Hok) as Hall.
  destruct (decide (k = j)) as [<-|Hne].
  - pose proof (lookup_lt_Some _ _ _ Hj) as Hlt. rewrite length_insert in Hlt.
    rewrite list_lookup_insert_eq in Hj by exact Hlt. injection Hj as <-.
    destruct (lookup_lt_is_Some_2 args k Hlt) as [old Hold].
    destruct (Hall k old Hold) as (d & Hd & _).
    exists d. split; [exact Hd | left; reflexivity].
  - rewrite list_lookup_insert_ne in Hj by exact Hne. apply Hall, Hj.
Qed.

(** The count tests raise arity (or index) errors only: a type mismatch
    raised by [check_arguments] comes from its loop. *)
Lemma check_arguments_mismatch_loop (f : function) (args : list value) (i : Z)
    (name : string) (actual : pytype) (expected : descriptor) :
  check_arguments f args = Raises (TypeMismatchError i name actual expected) ->
  check_arguments_loop f 0 args = Raises (TypeMismatchError i name actual expected).
Proof.
  unfold check_arguments.
  destruct (getitem (arg_types f) (-1)) as [d|e'|w] eqn:G.
  - destruct (negb (len args =? len (arg_types f))); simpl.
    + destruct (negb (is_None d)); simpl; [discriminate|].
      destruct (len args <? len (arg_types f) - 1); simpl; [|auto].
      destruct (is_None d); simpl; [discriminate | auto].
    + destruct (len args <? len (arg_types f) - 1); simpl; [|auto].
      destruct (is_None d); simpl; [discriminate | auto].
  - apply getitem_Raises in G. subst e'.
    destruct (negb (len args =? len (arg_types f))); simpl; [discriminate|].
    destruct (len args <? len (arg_types f) - 1); simpl; [discriminate | auto].
  - unfold getitem in G. repeat case_match; discriminate.
Qed.

(** C3 (as the code has it): at call time an object reference is never
    refused for its type -- a type mismatch raised by [check_arguments]
    names a position whose argument is not a reference, and replacing any
    argument of an accepted call by a reference leaves the call accepted.
    At resolution the arguments are taken in order: when the arguments
    before position [k] resolve, and position [k] holds a reference whose
    stored value is not an instance of the type declared at [k], then
    [get_arguments_for_execution] reads the reference and raises the type
    mismatch that carries [k], [function.__name__], the type of the value
    read and the declared type. *)
Theorem reference_check_deferred_to_resolution (f : function) (args : list value) :
  (forall (i : Z) (name : string) (actual : pytype) (expected : descriptor),
     check_arguments f args = Raises (TypeMismatchError i name actual expected) ->
     exists (k : nat) (arg : value),
       i = Z.of_nat k /\ args !! k = Some arg /\ is_ObjRef arg = false) /\
  (forall (k : nat) (r : objref),
     check_arguments f args = Returns tt ->
     check_arguments f (<[k := VObjRef r]> args) = Returns tt) /\
  (forall (worker : Worker) (s s1 : world) (vs : list value)
          (k : nat) (r : objref) (c : capsule) (t : pytype),
     is_Some (handle worker) ->
     args !! k = Some (VObjRef r) ->
     objstore s !! r = Some c ->
     arg_types f !! k = Some (Some t) ->
     issubclass (type_of (deserialize c)) t = false ->
     get_arguments_for_execution f (take k args) worker s = (Returns vs, s1) ->
     get_arguments_for_execution f args worker s =
       (Raises (TypeMismatchError (Z.of_nat k) (__name__ f)
                                  (type_of (deserialize c)) (Some t)),
        record_event s1 (EvGetObject r))).
Proof.
  split; [|split].
  - intros i name actual expected Hraise.
    apply check_arguments_mismatch_loop in Hraise.
    destruct (check_arguments_loop_mismatch f args 0 i name actual expected Hraise)
      as (k & arg & -> & Hk & Href & _).
    exists k, arg. split; [lia|]. split; [exact Hk | exact Href].
  - intros k r. apply check_arguments_accepts_reference.
  - intros worker s s1 vs k r c t Hh Hk Hc Ht Hsub Hprefix.
    apply (get_arguments_stops_at f worker args k (VObjRef r) vs _ s s1 _ Hk Hprefix).
    assert (Hc1 : objstore s1 !! r = Some c).
    { unfold get_arguments_for_execution in Hprefix.
      apply get_arguments_loop_Returns in Hprefix as [Hstore _].
      rewrite Hstore. exact Hc. }
    rewrite (get_arguments_step_reference f worker _ r c t s1 Hh Hc1
               (expected_type_declared f k t Ht)).
    rewrite Hsub. reflexivity.
Qed.

(** At a concrete input: [add(2, <ref 1>)] with the string ["a"] stored
    under reference 1 passes the call-time check and fails at resolution. *)
Lemma reference_check_deferred_to_resolution_witness :
  check_arguments Examples.add [VInt 2; VObjRef 1%nat] = Returns tt /\
  get_arguments_for_execution Examples.add [VInt 2; VObjRef 1%nat]
                              Examples.connected_worker Examples.world_with_str =
    (Raises (TypeMismatchError 1 "example.add" T_str (Some T_int)),
     record_event Examples.world_with_str (EvGetObject 1%nat)).
Proof.
  destruct (reference_check_deferred_to_resolution Examples.add [VInt 2; VInt 3])
    as (_ & Hcall & _).
  destruct (reference_check_deferred_to_resolution Examples.add [VInt 2; VObjRef 1%nat])
    as (_ & _ & Hres).
  split.
  - apply (Hcall 1%nat 1%nat). reflexivity.
  - apply (Hres Examples.connected_worker Examples.world_with_str Examples.world_with_str
                [VInt 2] 1%nat 1%nat (serialize (VStr "a")) T_int).
    + eexists. reflexivity.
    + reflexivity.
    + vm_compute. reflexivity.
    + reflexivity.
    + reflexivity.
    + reflexivity.
Defined.

(** C3 (as stated) fails: the second argument of [add(<ref 0>, <ref 1>)]
    is a reference whose stored value, the string ["a"], does not satisfy
    the declared [int]; nothing is stored under reference 0, so resolution
    blocks in [get_object] on the first argument and no type mismatch is
    raised. *)
Lemma resolution_blocks_before_mismatch :
  [VObjRef 0%nat; VObjRef 1%nat] !! 1%nat = Some (VObjRef 1%nat) /\
  objstore Examples.world_with_str !! 1%nat = Some (serialize (VStr "a")) /\
  arg_types Examples.add !! 1%nat = Some (Some T_int) /\
  isinstance (VStr "a") (Some T_int) = Returns false /\
  get_arguments_for_execution Examples.add [VObjRef 0%nat; VObjRef 1%nat]
                              Examples.connected_worker Examples.world_with_str =
    (Blocks (WaitObject 0%nat), record_event Examples.world_with_str (EvGetObject 0%nat)) /\
  ~ (exists i name actual expected s',
       get_arguments_for_execution Examples.add [VObjRef 0%nat; VObjRef 1%nat]
                                   Examples.connected_worker Examples.world_with_str =
         (Raises (TypeMismatchError i name actual expected), s')).
Proof.
  assert (Hrun : get_arguments_for_execution Examples.add [VObjRef 0%nat; VObjRef 1%nat]
                   Examples.connected_worker Examples.world_with_str =
                 (Blocks (WaitObject 0%nat),
                  record_event Examples.world_with_str (EvGetObject 0%nat)))
    by (vm_compute; reflexivity).
  split; [reflexivity|]. split; [vm_compute; reflexivity|].
  split; [reflexivity|]. split; [reflexivity|]. split; [exact Hrun|].
  intros (i & name & actual & expected & s' & Habs).
  rewrite Hrun in Habs. discriminate.
Qed.

(** ** The protocol end to end *)

(** [add(2, 3)] yields one reference, and after the main loop has executed
    the pending task the store holds 5 under it.  The library was called in
    this order. *)
Example add_end_to_end :
  Examples.call_and_run Examples.add [VInt 2; VInt 3] Examples.empty_world =
    (Returns (VInt 5),
     World {[ 0%nat := serialize (VInt 5) ]} {[ "example.add" := 1 ]} 1%nat []
           [EvCreateWorker "scheduler:1" "objstore:1" "worker:1";
            EvRegisterFunction "example.add" 1;
            EvRemoteCall "example.add" [VInt 2; VInt 3];
            EvStartWorkerService;
            EvWaitForNextTask;
            EvPutObject 0%nat (serialize (VInt 5));
            EvNotifyTaskCompleted;
            EvGetObject 0%nat]).
Proof. vm_compute. reflexivity. Qed.

(** [split("ab")] yields two references, which hold the two parts after
    execution. *)
Example split_end_to_end :
  fst (Examples.call_and_run Examples.split [VStr "ab"] Examples.empty_world) =
    Returns (VTuple [VStr "a"; VStr "b"]).
Proof. vm_compute. reflexivity. Qed.

(** With no task left the loop blocks in [wait_for_next_task]. *)
Example main_loop_waits_for_task :
  fst (main_loop 2 Examples.connected_worker Examples.empty_world) = Blocks WaitTask.
Proof. reflexivity. Qed.


(** * Further properties *)

(** ** The call-time check, case by case *)

(** With a last descriptor that is a type object, every position below the
    length of the descriptor list is checked against its own descriptor. *)
Lemma expected_type_own (f : function) (k : nat) (d : descriptor) (t : pytype) :
  last (arg_types f) = Some (Some t) ->
  arg_types f !! k = Some d ->
  expected_type f (Z.of_nat k) = Returns d.
Proof.
  intros Hlast Hd.
  pose proof (lookup_lt_Some _ _ _ Hd) as Hk.
  destruct (Z.lt_ge_cases (Z.of_nat k) (len (arg_types f) - 1)) as [Hlt|Hge].
  - apply expected_type_before_last; assumption.
  - assert (Hi : k = (length (arg_types f) - 1)%nat) by (unfold len in Hge; lia).
    assert (d = Some t).
    { rewrite last_lookup, <- Nat.sub_1_r, <- Hi, Hd in Hlast. congruence. }
    subst d. apply expected_type_declared, Hd.
Qed.

(** What the loop of [check_arguments] demands, read on the descriptor
    list, when the position has a descriptor of its own to be checked
    against. *)
Lemma accepted_at_matches (f : function) (k : nat) (arg : value) (d : descriptor) :
  expected_type f (Z.of_nat k) = Returns d ->
  arg_types f !! k = Some d ->
  accepted_at f (Z.of_nat k) arg <-> matches_descriptor (arg_types f) k arg.
Proof.
  intros Hexp Hd. unfold accepted_at, matches_descriptor. split.
  - intros (d' & Hd' & [Href|Hinst]); [left; exact Href|].
    rewrite Hexp in Hd'. injection Hd' as <-.
    destruct d as [t|]; simpl in Hinst; [|discriminate].
    right. exists t. split; [exact Hd | congruence].
  - intros [Href|(t & Ht & Hsub)].
    + exists d. split; [exact Hexp | left; exact Href].
    + exists d. split; [exact Hexp|]. right.
      rewrite Hd in Ht. injection Ht as ->. simpl. rewrite Hsub. reflexivity.
Qed.

(** X1: for a function declared with a trailing sentinel, a call with fewer
    than [L - 1] arguments is refused with the error "expects at least",
    which carries [L - 1] and the number received; the proxy raises it
    before anything is dispatched. *)
Theorem check_arguments_variadic_minimum (worker : Worker) (f : function)
    (args : list value) (s : world) :
  last (arg_types f) = Some None ->
  len args < len (arg_types f) - 1 ->
  check_arguments f args =
    Raises (ArityAtLeastError (__name__ f) (len (arg_types f) - 1) (len args)) /\
  func_call worker f args s =
    (Raises (ArityAtLeastError (__name__ f) (len (arg_types f) - 1) (len args)), s).
Proof.
  intros Hlast Hlt.
  assert (Hc : check_arguments f args =
               Raises (ArityAtLeastError (__name__ f) (len (arg_types f) - 1) (len args))).
  { rewrite (check_arguments_counts f args None Hlast).
    rewrite andb_false_r. apply Z.ltb_lt in Hlt. rewrite Hlt. reflexivity. }
  split; [exact Hc | apply func_call_check_raises, Hc].
Qed.

Lemma check_arguments_variadic_minimum_witness :
  func_call Examples.connected_worker Examples.sum3 [VInt 1] Examples.empty_world =
    (Raises (ArityAtLeastError "example.sum3" 2 1), Examples.empty_world).
Proof.
  apply (check_arguments_variadic_minimum Examples.connected_worker Examples.sum3
           [VInt 1] Examples.empty_world).
  - reflexivity.
  - reflexivity.
Defined.

(** X2: a function whose last descriptor is a type object accepts a call
    exactly when the number of arguments equals the number of descriptors
    and every argument is an object reference or an instance of the type
    declared at its position. *)
Theorem check_arguments_accepts_iff (f : function) (args : list value) (t : pytype) :
  last (arg_types f) = Some (Some t) ->
  check_arguments f args = Returns tt <->
  len args = len (arg_types f) /\
  forall (k : nat) (arg : value),
    args !! k = Some arg -> matches_descriptor (arg_types f) k arg.
Proof.
  intros Hlast. rewrite (check_arguments_counts f args (Some t) Hlast). simpl.
  rewrite andb_true_r, andb_false_r.
  destruct (len args =? len (arg_types f)) eqn:E; simpl.
  - apply Z.eqb_eq in E. rewrite check_arguments_loop_Returns.
    assert (Hown : forall k arg, args !! k = Some arg ->
              exists d, arg_types f !! k = Some d /\
                        expected_type f (Z.of_nat k) = Returns d).
    { intros k arg Hk. apply lookup_lt_Some in Hk.
      destruct (lookup_lt_is_Some_2 (arg_types f) k) as [d Hd];
        [unfold len in E; lia|].
      exists d. split; [exact Hd | exact (expected_type_own f k d t Hlast Hd)]. }
    split.
    + intros Hall. split; [exact E|]. intros k arg Hk.
      destruct (Hown k arg Hk) as (d & Hd & Hexp).
      apply (accepted_at_matches f k arg d Hexp Hd).
      specialize (Hall k arg Hk). rewrite Z.add_0_l in Hall. exact Hall.
    + intros [_ Hall] k arg Hk. rewrite Z.add_0_l.
      destruct (Hown k arg Hk) as (d & Hd & Hexp).
      apply (accepted_at_matches f k arg d Hexp Hd), Hall, Hk.
  - apply Z.eqb_neq in E. split; [discriminate | intros [Habs _]; contradiction].
Qed.

Lemma check_arguments_accepts_iff_witness :
  check_arguments Examples.label [VInt 1; VObjRef 5%nat] = Returns tt.
Proof.
  apply (check_arguments_accepts_iff Examples.label [VInt 1; VObjRef 5%nat] T_str eq_refl).
  split; [reflexivity|].
  intros [|[|k]] arg Hk; simpl in Hk; try discriminate; injection Hk as <-.
  - right. exists T_int. split; reflexivity.
  - left. reflexivity.
Defined.

(** X3: a function declared with a trailing sentinel accepts a call exactly
    when there are [L - 1] arguments, none for the sentinel's position, and
    each is an object reference or an instance of the type declared at its
    position. *)
Theorem check_arguments_variadic_accepts_iff (f : function) (args : list value) :
  last (arg_types f) = Some None ->
  check_arguments f args = Returns tt <->
  len args = len (arg_types f) - 1 /\
  forall (k : nat) (arg : value),
    args !! k = Some arg -> matches_descriptor (arg_types f) k arg.
Proof.
  intros Hlast.
  assert (Hown : len args <= len (arg_types f) - 1 ->
            forall k arg, args !! k = Some arg ->
              exists d, arg_types f !! k = Some d /\
                        expected_type f (Z.of_nat k) = Returns d).
  { intros Hle k arg Hk. apply lookup_lt_Some in Hk.
    destruct (lookup_lt_is_Some_2 (arg_types f) k) as [d Hd];
      [unfold len in Hle; lia|].
    exists d. split; [exact Hd|].
    apply expected_type_before_last; [unfold len in *; lia | exact Hd]. }
  split.
  - intros Hret.
    assert (Hlt : len args < len (arg_types f)).
    { destruct (Z.lt_ge_cases (len args) (len (arg_types f))) as [H|H]; [exact H|].
      exfalso. apply (check_arguments_variadic_tail_refused f args Hlast); [lia | exact Hret]. }
    rewrite (check_arguments_counts f args None Hlast) in Hret.
    rewrite andb_false_r, andb_true_r in Hret.
    destruct (len args <? len (arg_types f) - 1) eqn:E; [discriminate|].
    apply Z.ltb_ge in E. split; [lia|].
    intros k arg Hk. destruct (Hown ltac:(lia) k arg Hk) as (d & Hd & Hexp).
    apply (accepted_at_matches f k arg d Hexp Hd).
    pose proof (proj1 (check_arguments_loop_Returns f args 0) Hret k arg Hk) as Hacc.
    rewrite Z.add_0_l in Hacc. exact Hacc.
  - intros [Hlen Hall].
    rewrite (check_arguments_counts f args None Hlast).
    rewrite andb_false_r, andb_true_r.
    destruct (len args <? len (arg_types f) - 1) eqn:E; [apply Z.ltb_lt in E; lia|].
    apply check_arguments_loop_Returns. intros k arg Hk. rewrite Z.add_0_l.
    destruct (Hown ltac:(lia) k arg Hk) as (d & Hd & Hexp).
    apply (accepted_at_matches f k arg d Hexp Hd), Hall, Hk.
Qed.

Lemma check_arguments_variadic_accepts_iff_witness :
  check_arguments Examples.sum3 [VInt 1; VInt 2] = Returns tt.
Proof.
  apply (check_arguments_variadic_accepts_iff Examples.sum3 [VInt 1; VInt 2] eq_refl).
  split; [reflexivity|].
  intros [|[|k]] arg Hk; simpl in Hk; try discriminate; injection Hk as <-;
    right; exists T_int; split; reflexivity.
Defined.

(** The loop of [check_arguments] over a concatenation: the first part,
    then the second from the position reached. *)
Lemma check_arguments_loop_app (f : function) (args1 args2 : list value) :
  forall i : Z,
    check_arguments_loop f i (args1 ++ args2) =
    bind_result (check_arguments_loop f i args1)
                (fun _ => check_arguments_loop f (i + len args1) args2).
Proof.
  induction args1 as [|a rest IH]; intros i; simpl.
  - change (len (@nil value)) with 0. rewrite Z.add_0_r. reflexivity.
  - destruct (expected_type f i) as [d|e|w]; simpl; try reflexivity.
    destruct (if is_ObjRef a then Returns tt
              else bind_result (isinstance a d)
                     (fun ok => if negb ok
                                then Raises (TypeMismatchError i (__name__ f) (type_of a) d)
                                else Returns tt)) as [[]|e|w]; simpl; try reflexivity.
    rewrite IH, len_cons.
    replace (i + 1 + len rest) with (i + (1 + len rest)) by lia. reflexivity.
Qed.

(** The count is right: as many arguments as descriptors when the last
    descriptor is a type object, one fewer when it is the sentinel.  Then
    both count tests pass, and every argument is checked against the
    descriptor of its own position. *)
Lemma check_arguments_count_right (f : function) (args : list value) :
  (exists t, last (arg_types f) = Some (Some t) /\ len args = len (arg_types f)) \/
  (last (arg_types f) = Some None /\ len args = len (arg_types f) - 1) ->
  check_arguments f args = check_arguments_loop f 0 args /\
  forall (j : nat) (a : value), args !! j = Some a ->
    exists d, arg_types f !! j = Some d /\ expected_type f (Z.of_nat j) = Returns d.
Proof.
  intros [(t & Hlast & Hlen)|[Hlast Hlen]].
  - split.
    + rewrite (check_arguments_counts f args (Some t) Hlast). simpl.
      rewrite andb_true_r, andb_false_r.
      apply Z.eqb_eq in Hlen. rewrite Hlen. reflexivity.
    + intros j a Hj. apply lookup_lt_Some in Hj.
      destruct (lookup_lt_is_Some_2 (arg_types f) j) as [d Hd];
        [unfold len in Hlen; lia|].
      exists d. split; [exact Hd | exact (expected_type_own f j d t Hlast Hd)].
  - split.
    + rewrite (check_arguments_counts f args None Hlast).
      rewrite andb_false_r, andb_true_r.
      destruct (len args <? len (arg_types f) - 1) eqn:E; [apply Z.ltb_lt in E; lia|].
      reflexivity.
    + intros j a Hj. apply lookup_lt_Some in Hj.
      destruct (lookup_lt_is_Some_2 (arg_types f) j) as [d Hd];
        [unfold len in Hlen; lia|].
      exists d. split; [exact Hd|].
      apply expected_type_before_last; [unfold len in *; lia | exact Hd].
Qed.

(** X4: when the count is right (as many arguments as descriptors for a
    list that ends in a type object, one fewer for a list that ends in the
    sentinel) and the arguments before position [k] are accepted, an
    argument at [k] that is not an object reference and not an instance of
    the type declared at [k] makes [check_arguments] raise the type
    mismatch that carries [k], [function.__name__], the argument's type and
    the declared type, whatever follows position [k]; the proxy raises it
    before anything is dispatched. *)
Theorem check_arguments_reports_first_mismatch (worker : Worker) (f : function)
    (args : list value) (s : world)
    (k : nat) (arg : value) (t' : pytype) :
  (exists t, last (arg_types f) = Some (Some t) /\ len args = len (arg_types f)) \/
  (last (arg_types f) = Some None /\ len args = len (arg_types f) - 1) ->
  (forall (j : nat) (a : value), (j < k)%nat -> args !! j = Some a ->
     matches_descriptor (arg_types f) j a) ->
  args !! k = Some arg ->
  is_ObjRef arg = false ->
  arg_types f !! k = Some (Some t') ->
  issubclass (type_of arg) t' = false ->
  check_arguments f args =
    Raises (TypeMismatchError (Z.of_nat k) (__name__ f) (type_of arg) (Some t')) /\
  func_call worker f args s =
    (Raises (TypeMismatchError (Z.of_nat k) (__name__ f) (type_of arg) (Some t')), s).
Proof.
  intros Hcount Hbefore Hk Href Ht' Hsub.
  destruct (check_arguments_count_right f args Hcount) as [Hloop Hown].
  assert (Hc : check_arguments f args =
               Raises (TypeMismatchError (Z.of_nat k) (__name__ f) (type_of arg) (Some t'))).
  { rewrite Hloop.
    rewrite <- (take_drop_middle args k arg Hk) at 1.
    rewrite check_arguments_loop_app.
    assert (Hprefix : check_arguments_loop f 0 (take k args) = Returns tt).
    { apply check_arguments_loop_Returns. intros j a Hj. rewrite Z.add_0_l.
      apply lookup_take_Some in Hj as [Hj Hjk].
      destruct (Hown j a Hj) as (d & Hd & Hexp).
      apply (accepted_at_matches f j a d Hexp Hd).
      apply (Hbefore j a Hjk Hj). }
    rewrite Hprefix. simpl.
    replace (0 + len (take k args)) with (Z.of_nat k)
      by (unfold len; rewrite length_take; apply lookup_lt_Some in Hk; lia).
    rewrite (expected_type_declared f k t' Ht'). simpl.
    rewrite Href. simpl. rewrite Hsub. reflexivity. }
  split; [exact Hc | apply func_call_check_raises, Hc].
Qed.

Lemma check_arguments_reports_first_mismatch_witness :
  func_call Examples.connected_worker Examples.label [VInt 1; VInt 2] Examples.empty_world =
    (Raises (TypeMismatchError 1 "example.label" T_int (Some T_str)), Examples.empty_world) /\
  func_call Examples.connected_worker Examples.sum3 [VInt 1; VStr "a"] Examples.empty_world =
    (Raises (TypeMismatchError 1 "example.sum3" T_str (Some T_int)), Examples.empty_world).
Proof.
  split.
  - apply (check_arguments_reports_first_mismatch Examples.connected_worker Examples.label
             [VInt 1; VInt 2] Examples.empty_world 1%nat (VInt 2) T_str).
    + left. exists T_str. split; reflexivity.
    + intros [|j] a Hj Ha; [|lia]. injection Ha as <-.
      right. exists T_int. split; reflexivity.
    + reflexivity.
    + reflexivity.
    + reflexivity.
    + reflexivity.
  - apply (check_arguments_reports_first_mismatch Examples.connected_worker Examples.sum3
             [VInt 1; VStr "a"] Examples.empty_world 1%nat (VStr "a") T_int).
    + right. split; reflexivity.
    + intros [|j] a Hj Ha; [|lia]. injection Ha as <-.
      right. exists T_int. split; reflexivity.
    + reflexivity.
    + reflexivity.
    + reflexivity.
    + reflexivity.
Defined.

(** ** Resolution: what it raises, what it touches, how it relates to the
    call-time check *)

Lemma get_object_Raises (worker : Worker) (r : objref) (e : exn) (s s' : world) :
  get_object worker r s = (Raises e, s') ->
  s' = s /\ handle worker = None /\ exists msg, e = LibError msg.
Proof.
  unfold get_object, lib.get_object, with_handle, bind, log, ret, raise.
  destruct (handle worker); simpl.
  - destruct (objstore s !! r); discriminate.
  - intros [= <- <-]. split; [reflexivity|]. split; [reflexivity|]. eexists. reflexivity.
Qed.

(** What one pass of the resolution loop can raise. *)
Lemma get_arguments_step_Raises (f : function) (worker : Worker) (i : Z)
    (arg : value) (e : exn) (s s' : world) :
  get_arguments_step f worker i arg s = (Raises e, s') ->
  e = IndexError \/ (exists msg, e = TypeError msg) \/
  (exists msg, e = AssertionError msg) \/ (exists msg, e = LibError msg) \/
  (exists actual expected, e = TypeMismatchError i (__name__ f) actual expected).
Proof.
  unfold get_arguments_step, bind, lift.
  destruct (expected_type f i) as [d|e'|w] eqn:Hexp; [| |discriminate].
  - destruct (fetch_argument worker arg s) as [[v|e'|w] s1] eqn:Hfetch; [| |discriminate].
    + destruct d as [t|]; simpl.
      * destruct (issubclass (type_of v) t); simpl; [discriminate|].
        intros [= <- _]. do 4 right. eexists _, _. reflexivity.
      * intros [= <- _]. right. left. eexists. reflexivity.
    + intros [= <- _]. destruct arg; simpl in Hfetch; try discriminate.
      apply get_object_Raises in Hfetch as (_ & _ & msg & ->).
      do 3 right. left. exists msg. reflexivity.
  - intros [= <- _].
    destruct (expected_type_Raises f i e' Hexp) as [-> | [-> | ->]].
    + left. reflexivity.
    + right. left. eexists. reflexivity.
    + right. right. left. eexists. reflexivity.
Qed.

(** X5: [get_arguments_for_execution] makes no count check: whatever it
    raises is an index error, a type error, the assertion error, a library
    error or a type mismatch carrying [function.__name__] -- never one of
    the two arity errors of [check_arguments]. *)
Theorem get_arguments_for_execution_raises_no_arity_error (f : function)
    (args : list value) (worker : Worker) (e : exn) (s s' : world) :
  get_arguments_for_execution f args worker s = (Raises e, s') ->
  (e = IndexError \/ (exists msg, e = TypeError msg) \/
   (exists msg, e = AssertionError msg) \/ (exists msg, e = LibError msg) \/
   (exists i actual expected, e = TypeMismatchError i (__name__ f) actual expected)) /\
  (forall name n m, e <> ArityError name n m /\ e <> ArityAtLeastError name n m).
Proof.
  unfold get_arguments_for_execution.
  assert (Hloop : forall (l : list value) (i : Z) (acc : list value) (s0 : world),
            get_arguments_loop f worker i l acc s0 = (Raises e, s') ->
            e = IndexError \/ (exists msg, e = TypeError msg) \/
            (exists msg, e = AssertionError msg) \/ (exists msg, e = LibError msg) \/
            (exists i actual expected,
               e = TypeMismatchError i (__name__ f) actual expected)).
  { induction l as [|a rest IH]; intros i acc s0; simpl; [discriminate|].
    unfold bind at 1.
    destruct (get_arguments_step f worker i a s0) as [[v|e'|w] s1] eqn:Hstep;
      [| |discriminate].
    - apply IH.
    - intros [= -> _].
      destruct (get_arguments_step_Raises f worker i a e s0 s1 Hstep)
        as [H|[H|[H|[H|(actual & expected & H)]]]]; auto.
      do 4 right. exists i, actual, expected. exact H. }
  intros Hrun. specialize (Hloop args 0 [] s Hrun). split; [exact Hloop|].
  intros name n m.
  destruct Hloop as [-> | [[msg ->] | [[msg ->] | [[msg ->] | [i [a [d ->]]]]]]];
    split; discriminate.
Qed.

Lemma get_arguments_for_execution_raises_no_arity_error_witness :
  AssertionError "This code should be unreachable." <> ArityError "example.label" 2 3.
Proof.
  apply (get_arguments_for_execution_raises_no_arity_error
           Examples.label [VInt 1; VStr "a"; VInt 3] Examples.connected_worker
           (AssertionError "This code should be unreachable.")
           Examples.empty_world Examples.empty_world).
  reflexivity.
Defined.

Lemma same_but_trace_refl (s : world) : same_but_trace s s.
Proof. repeat split. Qed.

Lemma same_but_trace_record (s : world) (ev : event) :
  same_but_trace s (record_event s ev).
Proof. repeat split. Qed.

Lemma same_but_trace_trans (s1 s2 s3 : world) :
  same_but_trace s1 s2 -> same_but_trace s2 s3 -> same_but_trace s1 s3.
Proof.
  unfold same_but_trace. intros (H1 & H2 & H3 & H4) (H5 & H6 & H7 & H8).
  repeat split; congruence.
Qed.

(** One pass of the resolution loop calls the library at most once, to read
    the reference it was given; a pass that returns has read it. *)
Lemma get_arguments_step_world (f : function) (worker : Worker) (i : Z)
    (arg : value) (out : result value) (s s' : world) :
  get_arguments_step f worker i arg s = (out, s') ->
  (s' = s /\ (forall v, out = Returns v -> is_ObjRef arg = false)) \/
  (exists r, arg = VObjRef r /\ s' = record_event s (EvGetObject r)).
Proof.
  unfold get_arguments_step, bind, lift.
  destruct (expected_type f i) as [d|e|w].
  - destruct arg as [| b | n | str | xs | xs | r]; simpl;
      try (unfold ret, raise; destruct (isinstance _ d) as [[|]|?|?]; simpl;
           intros [= <- <-]; left; (split; [reflexivity | intros; reflexivity])).
    unfold get_object, lib.get_object, with_handle, bind, log, ret, raise.
    destruct (handle worker); simpl.
    + destruct (objstore s !! r) as [c|]; simpl.
      * destruct (isinstance (deserialize c) d) as [[|]|?|?]; simpl;
          intros [= <- <-]; right; exists r; split; reflexivity.
      * intros [= <- <-]. right. exists r. split; reflexivity.
    + intros [= <- <-]. left. split; [reflexivity | discriminate].
  - intros [= <- <-]. left. split; [reflexivity | discriminate].
  - intros [= <- <-]. left. split; [reflexivity | discriminate].
Qed.

Lemma get_arguments_loop_world (f : function) (worker : Worker) (args : list value) :
  forall (i : Z) (arguments : list value) (out : result (list value)) (s s' : world),
    get_arguments_loop f worker i args arguments s = (out, s') ->
    same_but_trace s s' /\
    exists rs, rs `prefix_of` references args /\
               trace s' = trace s ++ map EvGetObject rs /\
               (forall vs, out = Returns vs -> rs = references args).
Proof.
  induction args as [|a rest IH]; intros i arguments out s s'; cbn [get_arguments_loop].
  - intros [= <- <-]. split; [apply same_but_trace_refl|].
    exists []. split; [reflexivity|]. split; [symmetry; apply app_nil_r | reflexivity].
  - unfold bind at 1.
    destruct (get_arguments_step f worker i a s) as [o1 s1] eqn:Hstep.
    pose proof (get_arguments_step_world f worker i a o1 s s1 Hstep) as Hworld.
    destruct o1 as [v|e|w].
    + intros Hrest. apply IH in Hrest as (Hsame & rs & Hpre & Htrace & Hfull).
      destruct Hworld as [[-> Hval]|(r & -> & ->)].
      * specialize (Hval v eq_refl).
        assert (Hrefs : references (a :: rest) = references rest)
          by (destruct a; try discriminate; reflexivity).
        rewrite Hrefs. split; [exact Hsame|]. exists rs. auto.
      * split; [exact (same_but_trace_trans _ _ _ (same_but_trace_record s _) Hsame)|].
        exists (r :: rs). change (references (VObjRef r :: rest)) with (r :: references rest).
        split; [apply prefix_cons, Hpre|].
        split; [rewrite Htrace; simpl; rewrite <- app_assoc; reflexivity|].
        intros vs Hvs. f_equal. apply (Hfull vs Hvs).
    + intros [= <- <-].
      destruct Hworld as [[-> _]|(r & -> & ->)].
      * split; [apply same_but_trace_refl|]. exists [].
        split; [apply prefix_nil|]. split; [symmetry; apply app_nil_r | discriminate].
      * split; [apply same_but_trace_record|]. exists [r].
        change (references (VObjRef r :: rest)) with (r :: references rest).
        split; [apply prefix_cons, prefix_nil|]. split; [reflexivity | discriminate].
    + intros [= <- <-].
      destruct Hworld as [[-> _]|(r & -> & ->)].
      * split; [apply same_but_trace_refl|]. exists [].
        split; [apply prefix_nil|]. split; [symmetry; apply app_nil_r | discriminate].
      * split; [apply same_but_trace_record|]. exists [r].
        change (references (VObjRef r :: rest)) with (r :: references rest).
        split; [apply prefix_cons, prefix_nil|]. split; [reflexivity | discriminate].
Qed.

(** X6: resolution only reads.  Whether [get_arguments_for_execution]
    returns, raises or blocks, the object store, the scheduler's table, its
    reference counter and the task queue are as before; the library was
    called only through [get_object], for a prefix of the object references
    among the arguments, in argument order, and for all of them when the
    function returns. *)
Theorem get_arguments_for_execution_only_reads (f : function) (args : list value)
    (worker : Worker) (out : result (list value)) (s s' : world) :
  get_arguments_for_execution f args worker s = (out, s') ->
  same_but_trace s s' /\
  exists rs, rs `prefix_of` references args /\
             trace s' = trace s ++ map EvGetObject rs /\
             (forall vs, out = Returns vs -> rs = references args).
Proof.
  unfold get_arguments_for_execution. apply get_arguments_loop_world.
Qed.

Lemma get_arguments_for_execution_only_reads_witness :
  same_but_trace Examples.world_with_str
                 (record_event Examples.world_with_str (EvGetObject 1%nat)).
Proof.
  apply (get_arguments_for_execution_only_reads
           Examples.label [VInt 1; VObjRef 1%nat] Examples.connected_worker
           (Returns [VInt 1; VStr "a"])
           Examples.world_with_str
           (record_event Examples.world_with_str (EvGetObject 1%nat))).
  vm_compute. reflexivity.
Defined.

(** When the resolution loop returns, every argument would have been
    accepted at call time at its position. *)
Lemma get_arguments_loop_Returns_accepted (f : function) (worker : Worker)
    (args : list value) :
  forall (i : Z) (arguments vs : list value) (s s' : world),
    get_arguments_loop f worker i args arguments s = (Returns vs, s') ->
    forall (k : nat) (arg : value),
      args !! k = Some arg -> accepted_at f (i + Z.of_nat k) arg.
Proof.
  induction args as [|a rest IH]; intros i arguments vs s s'; cbn [get_arguments_loop].
  - intros _ k arg Hk. discriminate.
  - unfold bind at 1.
    destruct (get_arguments_step f worker i a s) as [[v|e|w] s1] eqn:Hstep;
      [|discriminate|discriminate].
    apply get_arguments_step_Returns in Hstep as (_ & Hres & t & Ht & Hsub).
    intros Hrest [|k] arg Hk; simpl in Hk.
    + injection Hk as <-. rewrite Z.add_0_r. exists (Some t). split; [exact Ht|].
      destruct a; simpl in Hres;
        try (subst v; right; simpl in Hsub |- *; rewrite Hsub; reflexivity).
      left. reflexivity.
    + replace (i + Z.of_nat (S k)) with (i + 1 + Z.of_nat k) by lia.
      apply (IH _ _ _ _ _ Hrest k arg Hk).
Qed.

(** X7: an argument list that [get_arguments_for_execution] resolves passes
    the type checks of [check_arguments]: at call time the same list is
    accepted, or refused for its length alone, with one of the two arity
    errors. *)
Theorem resolved_arguments_pass_call_time_types (f : function) (args vs : list value)
    (worker : Worker) (s s' : world) :
  get_arguments_for_execution f args worker s = (Returns vs, s') ->
  check_arguments f args = Returns tt \/
  (len args <> len (arg_types f) /\
   check_arguments f args =
     Raises (ArityError (__name__ f) (len (arg_types f)) (len args))) \/
  (len args < len (arg_types f) - 1 /\
   check_arguments f args =
     Raises (ArityAtLeastError (__name__ f) (len (arg_types f) - 1) (len args))).
Proof.
  unfold get_arguments_for_execution. intros Hrun.
  pose proof (proj2 (check_arguments_loop_Returns f args 0)
                (get_arguments_loop_Returns_accepted f worker args 0 [] vs s s' Hrun))
    as Hloop.
  destruct (last (arg_types f)) as [d|] eqn:Hlast.
  - rewrite (check_arguments_counts f args d Hlast).
    destruct (len args =? len (arg_types f)) eqn:E1; simpl.
    + destruct (len args <? len (arg_types f) - 1) eqn:E2; simpl.
      * apply Z.eqb_eq in E1. apply Z.ltb_lt in E2. lia.
      * left. exact Hloop.
    + apply Z.eqb_neq in E1. destruct d as [t|]; simpl.
      * right. left. split; [exact E1 | reflexivity].
      * destruct (len args <? len (arg_types f) - 1) eqn:E2; simpl.
        -- apply Z.ltb_lt in E2. right. right. split; [exact E2 | reflexivity].
        -- left. exact Hloop.
  - apply last_None in Hlast.
    destruct args as [|a rest].
    + left. unfold check_arguments. rewrite Hlast. reflexivity.
    + exfalso.
      destruct (get_arguments_loop_Returns_typed f worker (a :: rest) 0 [] vs s s' Hrun 0%nat)
        as [t Ht]; [simpl; lia|].
      rewrite (expected_type_no_descriptors f _ Hlast) in Ht; [discriminate | lia].
Qed.

Lemma resolved_arguments_pass_call_time_types_witness :
  check_arguments Examples.label [VInt 1; VObjRef 1%nat] = Returns tt \/
  (len [VInt 1; VObjRef 1%nat] <> len (arg_types Examples.label) /\
   check_arguments Examples.label [VInt 1; VObjRef 1%nat] =
     Raises (ArityError (__name__ Examples.label) (len (arg_types Examples.label))
                        (len [VInt 1; VObjRef 1%nat]))) \/
  (len [VInt 1; VObjRef 1%nat] < len (arg_types Examples.label) - 1 /\
   check_arguments Examples.label [VInt 1; VObjRef 1%nat] =
     Raises (ArityAtLeastError (__name__ Examples.label)
                               (len (arg_types Examples.label) - 1)
                               (len [VInt 1; VObjRef 1%nat]))).
Proof.
  apply (resolved_arguments_pass_call_time_types
           Examples.label [VInt 1; VObjRef 1%nat] [VInt 1; VStr "a"]
           Examples.connected_worker Examples.world_with_str
           (record_event Examples.world_with_str (EvGetObject 1%nat))).
  vm_compute. reflexivity.
Defined.

Lemma references_nil_lookup (args : list value) (k : nat) (arg : value) :
  references args = [] -> args !! k = Some arg -> is_ObjRef arg = false.
Proof.
  revert k. induction args as [|a rest IH]; intros k Hrefs Hk; [discriminate|].
  destruct k as [|k]; simpl in Hk.
  - injection Hk as <-. destruct a; try reflexivity. discriminate.
  - apply (IH k); [|exact Hk]. destruct a; try exact Hrefs. discriminate.
Qed.

(** Arguments passed by value that the call-time loop accepts go through
    the resolution loop unchanged, without a library call. *)
Lemma get_arguments_loop_by_value (f : function) (worker : Worker) (args : list value) :
  forall (i : Z) (arguments : list value) (s : world),
    (forall (k : nat) (arg : value), args !! k = Some arg ->
       accepted_at f (i + Z.of_nat k) arg /\ is_ObjRef arg = false) ->
    get_arguments_loop f worker i args arguments s = (Returns (arguments ++ args), s).
Proof.
  induction args as [|a rest IH]; intros i arguments s Hall; cbn [get_arguments_loop].
  - rewrite app_nil_r. reflexivity.
  - destruct (Hall 0%nat a eq_refl) as [(d & Hd & Hacc) Href].
    rewrite Z.add_0_r in Hd.
    destruct Hacc as [Habs|Hinst]; [congruence|].
    destruct d as [t|]; simpl in Hinst; [|discriminate]. injection Hinst as Hsub.
    unfold bind. rewrite (get_arguments_step_by_value f worker i a t s Href Hd), Hsub.
    rewrite IH.
    + rewrite <- app_assoc. reflexivity.
    + intros k arg Hk.
      replace (i + 1 + Z.of_nat k) with (i + Z.of_nat (S k)) by lia.
      apply (Hall (S k) arg Hk).
Qed.

Lemma accepted_values_resolve_unchanged_loop (f : function) (args : list value)
    (worker : Worker) (s : world) :
  check_arguments f args = Returns tt ->
  references args = [] ->
  get_arguments_for_execution f args worker s = (Returns args, s).
Proof.
  intros Hcheck Hrefs. unfold get_arguments_for_execution.
  apply check_arguments_Returns_loop in Hcheck.
  apply (get_arguments_loop_by_value f worker args 0 [] s).
  intros k arg Hk. split.
  - apply (proj1 (check_arguments_loop_Returns f args 0) Hcheck k arg Hk).
  - apply (references_nil_lookup args k arg Hrefs Hk).
Qed.

(** X8: a call without object references that [check_arguments] accepts is
    resolved without touching the world: [get_arguments_for_execution]
    returns the argument list itself, on any worker, connected or not. *)
Theorem accepted_values_resolve_unchanged (f : function) (args : list value)
    (worker : Worker) (s : world) :
  check_arguments f args = Returns tt ->
  references args = [] ->
  get_arguments_for_execution f args worker s = (Returns args, s).
Proof.
  apply accepted_values_resolve_unchanged_loop.
Qed.

Lemma accepted_values_resolve_unchanged_witness :
  get_arguments_for_execution Examples.add [VInt 2; VInt 3] Worker_init Examples.empty_world
    = (Returns [VInt 2; VInt 3], Examples.empty_world).
Proof.
  apply (accepted_values_resolve_unchanged Examples.add [VInt 2; VInt 3]
           Worker_init Examples.empty_world).
  - reflexivity.
  - reflexivity.
Defined.

(** ** Output storage: a result that is too short *)

Lemma py_getitem_out_of_range (v : value) (n : Z) (k : nat) :
  py_len v = Returns n ->
  (length (elements v) <= k)%nat ->
  py_getitem v (Z.of_nat k) = Raises IndexError.
Proof.
  assert (Hget : forall {A} (l : list A), (length l <= k)%nat ->
                   getitem l (Z.of_nat k) = Raises IndexError).
  { intros A l Hk. unfold getitem.
    destruct (Z.of_nat k <? 0) eqn:E; [apply Z.ltb_lt in E; lia|].
    rewrite E, Nat2Z.id, (lookup_ge_None_2 l k Hk). reflexivity. }
  destruct v; simpl; try discriminate; intros _ Hk.
  - rewrite length_map in Hk. rewrite (Hget _ _ Hk). reflexivity.
  - apply Hget, Hk.
  - apply Hget, Hk.
Qed.

Lemma store_outputs_loop_short (worker : Worker) (h : handle_t) (outputs : value)
    (m : Z) (rest : list objref) :
  handle worker = Some h ->
  py_len outputs = Returns m ->
  forall (n : nat) (s : world),
    (n <= length (elements outputs))%nat ->
    (length (elements outputs) < n + length rest)%nat ->
    store_outputs_loop worker outputs (Z.of_nat n) rest s =
      (Raises IndexError,
       World (write_all (objstore s) rest (drop n (elements outputs)))
             (registered s) (next_objref s) (task_queue s)
             (trace s ++ put_events rest (drop n (elements outputs)))).
Proof.
  intros Hh Hsized. induction rest as [|r rest IH]; intros n s Hle Hlt; simpl in *.
  - lia.
  - destruct (decide (n = length (elements outputs))) as [->|Hne].
    + rewrite drop_all. unfold bind, lift.
      rewrite (py_getitem_out_of_range outputs m _ Hsized) by lia.
      unfold put_events. simpl. rewrite app_nil_r. destruct s; reflexivity.
    + destruct (lookup_lt_is_Some_2 (elements outputs) n) as [o Ho]; [lia|].
      rewrite (drop_S _ _ _ Ho). unfold bind, lift.
      rewrite (py_getitem_elements _ _ _ Ho).
      rewrite (put_object_connected worker h r o s Hh).
      replace (Z.of_nat n + 1) with (Z.of_nat (S n)) by lia.
      rewrite IH by (simpl; lia). simpl.
      unfold put_events. simpl. rewrite <- app_assoc. reflexivity.
Qed.

(** X9: with a number of output references other than 1 and a result that
    has fewer elements than there are references, [store_outputs_in_objstore]
    writes the elements there are, each under the reference of its
    position, and then raises [IndexError]: the writes already made stay in
    the store, and the remaining references are never written. *)
Theorem store_outputs_short_result_IndexError (objrefs : list objref) (outputs : value)
    (worker : Worker) (n : Z) (s : world) :
  is_Some (handle worker) ->
  len objrefs <> 1 ->
  py_len outputs = Returns n ->
  n < len objrefs ->
  store_outputs_in_objstore objrefs outputs worker s =
    (Raises IndexError,
     World (write_all (objstore s) objrefs (elements outputs))
           (registered s) (next_objref s) (task_queue s)
           (trace s ++ put_events objrefs (elements outputs))) /\
  length (put_events objrefs (elements outputs)) = Z.to_nat n.
Proof.
  intros [h Hh] Hne Hsized Hlt.
  pose proof (py_len_elements outputs n Hsized) as Hn.
  split.
  - unfold store_outputs_in_objstore. apply Z.eqb_neq in Hne. rewrite Hne.
    pose proof (store_outputs_loop_short worker h outputs n objrefs Hh Hsized 0%nat s)
      as Hloop.
    change (Z.of_nat 0) with 0 in Hloop. rewrite drop_0 in Hloop.
    apply Hloop; unfold len in *; lia.
  - unfold put_events. rewrite length_zip_with. unfold len in *. lia.
Qed.

Lemma store_outputs_short_result_IndexError_witness :
  store_outputs_in_objstore [4%nat; 5%nat; 6%nat] (VTuple [VInt 1; VInt 2])
                            Examples.connected_worker Examples.empty_world =
    (Raises IndexError,
     World (write_all ∅ [4%nat; 5%nat; 6%nat] [VInt 1; VInt 2]) ∅ 0%nat []
           [EvPutObject 4%nat (serialize (VInt 1)); EvPutObject 5%nat (serialize (VInt 2))]).
Proof.
  apply (store_outputs_short_result_IndexError [4%nat; 5%nat; 6%nat]
           (VTuple [VInt 1; VInt 2]) Examples.connected_worker 2 Examples.empty_world).
  - eexists. reflexivity.
  - discriminate.
  - reflexivity.
  - reflexivity.
Defined.

(** ** The registry: new names, order of registration *)

(** X10: on a worker that holds a handle, registering a function under a
    name the registry does not have yet adds exactly one entry: the name
    maps to the function, every other name maps to what it mapped to
    before, the registry has one entry more, and a lookup of the name as
    the main loop makes it finds the function. *)
Theorem register_function_adds_new_name (self : Worker) (f : function) (s : world) :
  is_Some (handle self) ->
  functions self !! func_name f = None ->
  exists self' s',
    register_function self f s = (Returns self', s') /\
    dict_getitem (functions self') (func_name f) = Returns f /\
    (forall name, name <> func_name f ->
                  functions self' !! name = functions self !! name) /\
    size (functions self') = S (size (functions self)) /\
    connected self' = connected self /\ handle self' = handle self /\
    s' = World (objstore s) (<[func_name f := len (return_types f)]> (registered s))
               (next_objref s) (task_queue s)
               (trace s ++ [registration_event f]).
Proof.
  intros [h Hh] Hfresh.
  unfold register_function, lib.register_function, bind, log, ret.
  rewrite Hh. simpl. eexists _, _. split; [reflexivity|]. simpl.
  split; [unfold dict_getitem; rewrite lookup_insert_eq; reflexivity|].
  split; [intros name Hne; apply lookup_insert_ne; congruence|].
  split; [apply map_size_insert_None, Hfresh|].
  repeat split.
Qed.

Lemma register_function_adds_new_name_witness :
  exists self' s',
    register_function Examples.connected_worker Examples.add Examples.empty_world
      = (Returns self', s') /\
    dict_getitem (functions self') "example.add" = Returns Examples.add /\
    size (functions self') = 1%nat.
Proof.
  destruct (register_function_adds_new_name Examples.connected_worker Examples.add
              Examples.empty_world) as (self' & s' & Hrun & Hget & _ & Hsize & _).
  - eexists. reflexivity.
  - reflexivity.
  - exists self', s'. split; [exact Hrun|]. split; [exact Hget|].
    rewrite Hsize. reflexivity.
Defined.

(** X11: on a worker that holds a handle, registering two functions with
    different names gives the same registry, and tells the scheduler the
    same arities, in whichever order the two are registered; only the order
    of the two library calls differs. *)
Theorem register_function_order_irrelevant (self : Worker) (f g : function) (s : world) :
  is_Some (handle self) ->
  func_name f <> func_name g ->
  exists wfg sfg wgf sgf,
    bind (register_function self f) (fun w => register_function w g) s
      = (Returns wfg, sfg) /\
    bind (register_function self g) (fun w => register_function w f) s
      = (Returns wgf, sgf) /\
    wfg = wgf /\
    registered sfg = registered sgf /\
    same_but_trace sfg sgf /\
    trace sfg = trace s ++ [registration_event f; registration_event g] /\
    trace sgf = trace s ++ [registration_event g; registration_event f].
Proof.
  intros [h Hh] Hne.
  unfold register_function, lib.register_function, bind, log, ret.
  rewrite Hh. simpl.
  eexists _, _, _, _. split; [reflexivity|]. split; [reflexivity|].
  assert (Hreg : <[func_name g := len (return_types g)]>
                   (<[func_name f := len (return_types f)]> (registered s)) =
                 <[func_name f := len (return_types f)]>
                   (<[func_name g := len (return_types g)]> (registered s)))
    by (apply insert_insert_ne; auto).
  split; [f_equal; apply insert_insert_ne; auto|].
  split; [exact Hreg|].
  split; [unfold same_but_trace; simpl; rewrite Hreg; repeat split|].
  split; rewrite <- app_assoc; reflexivity.
Qed.

Lemma register_function_order_irrelevant_witness :
  exists w s1 s2,
    bind (register_function Examples.connected_worker Examples.add)
         (fun w => register_function w Examples.split) Examples.empty_world
      = (Returns w, s1) /\
    bind (register_function Examples.connected_worker Examples.split)
         (fun w => register_function w Examples.add) Examples.empty_world
      = (Returns w, s2).
Proof.
  destruct (register_function_order_irrelevant Examples.connected_worker
              Examples.add Examples.split Examples.empty_world)
    as (wfg & sfg & wgf & sgf & H1 & H2 & Heq & _).
  - eexists. reflexivity.
  - discriminate.
  - exists wfg, sfg, sgf. split; [exact H1|]. rewrite Heq. exact H2.
Defined.

(** ** Registering a module *)

(** The registry after inserting the functions of a list, in order. *)
Lemma foldl_register_notin (fs : list function) :
  forall (m : gmap string function) (name : string),
    name ∉ map func_name fs ->
    foldl (fun m f => <[func_name f := f]> m) m fs !! name = m !! name.
Proof.
  induction fs as [|g fs IH]; intros m name Hnotin; simpl; [reflexivity|].
  simpl in Hnotin. apply not_elem_of_cons in Hnotin as [Hne Hnotin].
  rewrite IH by exact Hnotin. apply lookup_insert_ne. congruence.
Qed.

Lemma foldl_register_in (fs : list function) :
  forall (m : gmap string function) (f : function),
    NoDup (map func_name fs) ->
    f ∈ fs ->
    foldl (fun m f => <[func_name f := f]> m) m fs !! func_name f = Some f.
Proof.
  induction fs as [|g fs IH]; intros m f Hnodup Hin; simpl.
  - apply elem_of_nil in Hin. contradiction.
  - simpl in Hnodup. apply NoDup_cons in Hnodup as [Hnotin Hnodup].
    apply elem_of_cons in Hin as [->|Hin].
    + rewrite foldl_register_notin by exact Hnotin. apply lookup_insert_eq.
    + apply IH; assumption.
Qed.

(** On a worker that holds a handle the loop registers the distributed
    functions of the attributes one after the other. *)
Lemma register_module_loop_connected (h : handle_t) (attrs : list (string * attribute)) :
  forall (worker : Worker) (s : world),
    handle worker = Some h ->
    register_module_loop attrs worker s =
      (Returns (MkWorker (foldl (fun m f => <[func_name f := f]> m) (functions worker)
                                (distributed_functions attrs))
                         (connected worker) (handle worker)),
       World (objstore s)
             (foldl (fun m f => <[func_name f := len (return_types f)]> m) (registered s)
                    (distributed_functions attrs))
             (next_objref s) (task_queue s)
             (trace s ++ map registration_event (distributed_functions attrs))).
Proof.
  induction attrs as [|[name val] attrs IH]; intros worker s Hh; simpl.
  - unfold ret. rewrite app_nil_r. destruct worker, s. reflexivity.
  - destruct val as [f|]; simpl.
    + destruct (is_distributed f); simpl.
      * unfold bind at 1.
        unfold register_function, lib.register_function, bind, log, ret.
        rewrite Hh. simpl. rewrite IH by reflexivity. simpl.
        rewrite <- app_assoc. reflexivity.
      * unfold bind, ret. apply IH, Hh.
    + unfold bind, ret. apply IH, Hh.
Qed.

Lemma example_module_names_distinct :
  NoDup (map func_name (distributed_functions (module_dir Examples.example_module))).
Proof.
  change (NoDup ["example.add"; "example.split"]).
  apply NoDup_cons. split; [|apply NoDup_singleton].
  intros H. apply elem_of_cons in H as [H|H]; [discriminate|].
  apply elem_of_nil in H. exact H.
Qed.

(** X12: on a worker that holds a handle, [register_module] returns after
    one [register_function] library call per attribute that is a
    distributed function, in [dir] order and whatever [recursive] is;
    afterwards a name that no such function has maps to what it mapped to
    before, and when the functions have pairwise distinct names each of
    them is found in the registry under its name.  Attributes that are not
    distributed functions are skipped. *)
Theorem register_module_registers_distributed (module : pymodule) (recursive : bool)
    (worker : Worker) (s : world) :
  is_Some (handle worker) ->
  exists worker' s',
    register_module module recursive worker s = (Returns worker', s') /\
    trace s' = trace s ++ map registration_event (distributed_functions (module_dir module)) /\
    (forall name, name ∉ map func_name (distributed_functions (module_dir module)) ->
       functions worker' !! name = functions worker !! name) /\
    (NoDup (map func_name (distributed_functions (module_dir module))) ->
     forall f, f ∈ distributed_functions (module_dir module) ->
       functions worker' !! func_name f = Some f) /\
    connected worker' = connected worker /\ handle worker' = handle worker /\
    objstore s' = objstore s /\ task_queue s' = task_queue s.
Proof.
  intros [h Hh]. unfold register_module.
  rewrite (register_module_loop_connected h (module_dir module) worker s Hh).
  eexists _, _. split; [reflexivity|]. simpl.
  split; [reflexivity|].
  split; [intros name Hname; apply foldl_register_notin, Hname|].
  split; [intros Hnodup f Hf; apply foldl_register_in; assumption|].
  repeat split.
Qed.

Lemma register_module_registers_distributed_witness :
  exists worker' s',
    register_module Examples.example_module true Examples.connected_worker
                    Examples.empty_world = (Returns worker', s') /\
    trace s' = [EvRegisterFunction "example.add" 1; EvRegisterFunction "example.split" 2] /\
    functions worker' !! "example.split" = Some Examples.split.
Proof.
  destruct (register_module_registers_distributed Examples.example_module true
              Examples.connected_worker Examples.empty_world)
    as (worker' & s' & Hrun & Htrace & _ & Hin & _).
  - eexists. reflexivity.
  - exists worker', s'. split; [exact Hrun|]. split; [exact Htrace|].
    apply (Hin example_module_names_distinct Examples.split).
    apply list_elem_of_lookup. exists 1%nat. reflexivity.
Defined.

(** X13: a module without distributed functions leaves everything as it
    is: [register_module] returns the worker it was given and calls the
    library not once, also on a worker that never connected. *)
Theorem register_module_nothing_to_register (module : pymodule) (recursive : bool)
    (worker : Worker) (s : world) :
  distributed_functions (module_dir module) = [] ->
  register_module module recursive worker s = (Returns worker, s).
Proof.
  unfold register_module. generalize (module_dir module) as attrs.
  induction attrs as [|[name val] attrs IH]; simpl; intros Hnone; [reflexivity|].
  destruct val as [f|]; simpl in *.
  - destruct (is_distributed f); [discriminate|].
    unfold bind, ret. apply IH, Hnone.
  - unfold bind, ret. apply IH, Hnone.
Qed.

Lemma register_module_nothing_to_register_witness :
  register_module (PyModule "empty" [("__doc__", AttrOther); ("__name__", AttrOther)])
                  false Worker_init Examples.empty_world
    = (Returns Worker_init, Examples.empty_world).
Proof.
  apply (register_module_nothing_to_register
           (PyModule "empty" [("__doc__", AttrOther); ("__name__", AttrOther)])
           false Worker_init Examples.empty_world).
  reflexivity.
Defined.

(** ** Connecting and the main loop *)

(** On a connected worker the loop starts the worker service and waits for
    a task; with a task queued it takes the first one and runs it. *)
Lemma main_loop_takes_task (fuel : nat) (worker : Worker) (h : handle_t)
    (c : call_capsule) (rest : list call_capsule) (s : world) :
  connected worker = true ->
  handle worker = Some h ->
  task_queue s = c :: rest ->
  main_loop (S fuel) worker s =
    bind (run_task worker c) (fun _ => while_True fuel worker)
         (World (objstore s) (registered s) (next_objref s) rest
                (trace s ++ [EvStartWorkerService; EvWaitForNextTask])).
Proof.
  intros Hc Hh Hq. unfold main_loop. rewrite Hc. simpl.
  unfold lib.start_worker_service, main_loop_body, lib.wait_for_next_task.
  rewrite Hh. simpl. unfold bind at 1, log at 1. simpl.
  unfold bind at 1. unfold bind at 1. unfold bind at 1, log at 1. simpl.
  rewrite Hq. unfold record_event. simpl. rewrite <- app_assoc. simpl.
  unfold bind at 2. unfold run_task, lib.deserialize_call. rewrite Hh. reflexivity.
Qed.

(** With no task queued the loop blocks in [wait_for_next_task]. *)
Lemma main_loop_waits (fuel : nat) (worker : Worker) (h : handle_t) (s : world) :
  connected worker = true ->
  handle worker = Some h ->
  task_queue s = [] ->
  main_loop (S fuel) worker s =
    (Blocks WaitTask,
     World (objstore s) (registered s) (next_objref s) []
           (trace s ++ [EvStartWorkerService; EvWaitForNextTask])).
Proof.
  intros Hc Hh Hq. unfold main_loop. rewrite Hc. simpl.
  unfold lib.start_worker_service, main_loop_body, lib.wait_for_next_task.
  rewrite Hh. simpl. unfold bind, log, record_event. simpl. rewrite Hq.
  rewrite <- app_assoc. reflexivity.
Qed.

(** X14: [connect] gives the worker a handle, sets its [connected] flag and
    keeps its registry, so that [main_loop] no longer refuses to start:
    with no task queued, the loop starts the worker service and blocks
    waiting for the next task. *)
Theorem connect_enables_main_loop (scheduler_addr objstore_addr worker_addr : string)
    (worker : Worker) (fuel : nat) (s : world) :
  task_queue s = [] ->
  exists worker' s',
    connect scheduler_addr objstore_addr worker_addr worker s = (Returns worker', s') /\
    functions worker' = functions worker /\
    connected worker' = true /\
    handle worker' = Some (Handle scheduler_addr objstore_addr worker_addr) /\
    main_loop (S fuel) worker' s' =
      (Blocks WaitTask,
       World (objstore s) (registered s) (next_objref s) []
             (trace s ++ [EvCreateWorker scheduler_addr objstore_addr worker_addr;
                          EvStartWorkerService; EvWaitForNextTask])).
Proof.
  intros Hq. unfold connect, lib.create_worker, bind, log, ret. simpl.
  eexists _, _. split; [reflexivity|]. simpl. repeat split.
  rewrite (main_loop_waits fuel
             (MkWorker (functions worker) true
                       (Some (Handle scheduler_addr objstore_addr worker_addr)))
             (Handle scheduler_addr objstore_addr worker_addr)
             (record_event s (EvCreateWorker scheduler_addr objstore_addr worker_addr))
             eq_refl eq_refl Hq).
  unfold record_event. simpl. rewrite <- app_assoc. reflexivity.
Qed.

Lemma connect_enables_main_loop_witness :
  exists worker' s',
    connect "scheduler:1" "objstore:1" "worker:1" Worker_init Examples.empty_world
      = (Returns worker', s') /\
    fst (main_loop 1 worker' s') = Blocks WaitTask.
Proof.
  destruct (connect_enables_main_loop "scheduler:1" "objstore:1" "worker:1"
              Worker_init 0 Examples.empty_world eq_refl)
    as (worker' & s' & Hrun & _ & _ & _ & Hloop).
  exists worker', s'. split; [exact Hrun|]. rewrite Hloop. reflexivity.
Defined.

(** X15: when the task the scheduler delivers names a function that is not
    in the worker's registry, the main loop ends with [KeyError] for that
    name: the task has been taken off the queue, nothing is read from or
    written to the store, and the scheduler is not notified. *)
Theorem main_loop_unknown_function (fuel : nat) (worker : Worker)
    (c : call_capsule) (rest : list call_capsule) (s : world) :
  connected worker = true ->
  is_Some (handle worker) ->
  task_queue s = c :: rest ->
  functions worker !! call_func_name c = None ->
  main_loop (S fuel) worker s =
    (Raises (KeyError (call_func_name c)),
     World (objstore s) (registered s) (next_objref s) rest
           (trace s ++ [EvStartWorkerService; EvWaitForNextTask])).
Proof.
  intros Hc [h Hh] Hq Hnone.
  rewrite (main_loop_takes_task fuel worker h c rest s Hc Hh Hq).
  unfold run_task, bind, lift, dict_getitem. rewrite Hnone. reflexivity.
Qed.

Lemma main_loop_unknown_function_witness :
  main_loop 1 Examples.connected_worker
            (World ∅ ∅ 1%nat [Call "example.add" [VInt 2; VInt 3] [0%nat]] []) =
    (Raises (KeyError "example.add"),
     World ∅ ∅ 1%nat [] [EvStartWorkerService; EvWaitForNextTask]).
Proof.
  apply (main_loop_unknown_function 0 Examples.connected_worker
           (Call "example.add" [VInt 2; VInt 3] [0%nat]) []
           (World ∅ ∅ 1%nat [Call "example.add" [VInt 2; VInt 3] [0%nat]] [])).
  - reflexivity.
  - eexists. reflexivity.
  - reflexivity.
  - reflexivity.
Defined.


(** X16: when resolving the arguments of the delivered task raises, the
    main loop ends with that error, whatever fuel is left: the function is
    not executed, the store, the scheduler's table and the rest of the
    queue are as they were when the task was taken, and the library was
    called only to read object references -- the scheduler is not
    notified. *)
Theorem main_loop_stops_on_resolution_error (fuel : nat) (worker : Worker)
    (c : call_capsule) (rest : list call_capsule) (f : function) (e : exn)
    (s s2 : world) :
  connected worker = true ->
  is_Some (handle worker) ->
  task_queue s = c :: rest ->
  functions worker !! call_func_name c = Some f ->
  get_arguments_for_execution f (call_args c) worker
    (World (objstore s) (registered s) (next_objref s) rest
           (trace s ++ [EvStartWorkerService; EvWaitForNextTask])) = (Raises e, s2) ->
  main_loop (S fuel) worker s = (Raises e, s2) /\
  objstore s2 = objstore s /\ registered s2 = registered s /\
  next_objref s2 = next_objref s /\ task_queue s2 = rest /\
  exists rs, rs `prefix_of` references (call_args c) /\
             trace s2 = trace s ++ [EvStartWorkerService; EvWaitForNextTask]
                                ++ map EvGetObject rs.
Proof.
  intros Hc [h Hh] Hq Hf Hres.
  split.
  - rewrite (main_loop_takes_task fuel worker h c rest s Hc Hh Hq).
    unfold run_task, bind at 1, bind at 1, lift, dict_getitem. rewrite Hf.
    unfold bind at 1. rewrite Hres. reflexivity.
  - unfold get_arguments_for_execution in Hres.
    apply get_arguments_loop_world in Hres
      as ((H1 & H2 & H3 & H4) & rs & Hpre & Htrace & _).
    simpl in *. repeat (split; [assumption|]).
    exists rs. split; [exact Hpre|]. rewrite Htrace, <- app_assoc. reflexivity.
Qed.

Lemma main_loop_stops_on_resolution_error_witness :
  main_loop 5 (MkWorker {[ "example.add" := Examples.add ]} true (Some Examples.the_handle))
            (World ∅ ∅ 1%nat [Call "example.add" [VInt 2; VStr "x"] [0%nat]] []) =
    (Raises (TypeMismatchError 1 "example.add" T_str (Some T_int)),
     World ∅ ∅ 1%nat [] [EvStartWorkerService; EvWaitForNextTask]).
Proof.
  apply (main_loop_stops_on_resolution_error 4
           (MkWorker {[ "example.add" := Examples.add ]} true (Some Examples.the_handle))
           (Call "example.add" [VInt 2; VStr "x"] [0%nat]) [] Examples.add
           (TypeMismatchError 1 "example.add" T_str (Some T_int))
           (World ∅ ∅ 1%nat [Call "example.add" [VInt 2; VStr "x"] [0%nat]] [])
           (World ∅ ∅ 1%nat [] [EvStartWorkerService; EvWaitForNextTask])).
  - reflexivity.
  - eexists. reflexivity.
  - reflexivity.
  - apply lookup_singleton_eq.
  - reflexivity.
Defined.

(** ** From the call to the stored result *)

(** A checked call of a function the scheduler knows with one return value
    dispatches one task and returns the reference allocated for it. *)
Lemma func_call_dispatches_one (worker : Worker) (h : handle_t) (f : function)
    (args : list value) (s : world) :
  handle worker = Some h ->
  check_arguments f args = Returns tt ->
  registered s !! func_name f = Some 1 ->
  func_call worker f args s =
    (Returns (VObjRef (next_objref s)),
     World (objstore s) (registered s) (next_objref s + 1)%nat
           (task_queue s ++ [Call (func_name f) args [next_objref s]])
           (trace s ++ [EvRemoteCall (func_name f) args])).
Proof.
  intros Hh Hcheck Hreg.
  unfold func_call, remote_call, lib.remote_call, lib.serialize_call, bind, lift, log, ret.
  rewrite Hcheck, Hh. simpl. rewrite Hreg. reflexivity.
Qed.

(** The pass of the main loop that follows such a call, for any function
    object whose executor returns [v] on the arguments of the call. *)
Lemma main_loop_runs_dispatched_call (worker : Worker) (h : handle_t) (f : function)
    (args : list value) (v : value) (r : objref) (s sb : world) :
  connected worker = true ->
  handle worker = Some h ->
  functions worker !! func_name f = Some f ->
  check_arguments f args = Returns tt ->
  references args = [] ->
  executor f args
    (World (objstore s) (registered s) (r + 1)%nat []
           (trace s ++ [EvRemoteCall (func_name f) args;
                        EvStartWorkerService; EvWaitForNextTask])) = (Returns v, sb) ->
  main_loop 1 worker
    (World (objstore s) (registered s) (r + 1)%nat [Call (func_name f) args [r]]
           (trace s ++ [EvRemoteCall (func_name f) args])) =
  (Returns StillRunning,
   World (<[r := serialize v]> (objstore sb)) (registered sb) (next_objref sb)
         (task_queue sb)
         (trace sb ++ [EvPutObject r (serialize v); EvNotifyTaskCompleted])).
Proof.
  intros Hc Hh Hf Hcheck Hrefs Hexec.
  rewrite (main_loop_takes_task 0 worker h (Call (func_name f) args [r]) []
             (World (objstore s) (registered s) (r + 1)%nat [Call (func_name f) args [r]]
                    (trace s ++ [EvRemoteCall (func_name f) args]))
             Hc Hh eq_refl).
  cbn [objstore registered next_objref task_queue trace].
  rewrite <- app_assoc. cbn [app].
  unfold run_task. cbn [call_func_name call_args call_return_objrefs].
  unfold bind at 1, bind at 1, lift at 1, dict_getitem. rewrite Hf.
  unfold bind at 1.
  rewrite (accepted_values_resolve_unchanged_loop f args worker _ Hcheck Hrefs).
  unfold bind at 1, lift at 1.
  unfold bind at 1. rewrite Hexec.
  unfold bind at 1.
  unfold store_outputs_in_objstore. change (len [r] =? 1) with true. cbv iota.
  unfold bind at 1, lift at 1. change (getitem [r] 0) with (Returns r). cbv iota.
  rewrite (put_object_connected worker h r v sb Hh).
  unfold lib.notify_task_completed. rewrite Hh.
  unfold with_handle, bind, log, record_event, while_True, ret.
  cbn [objstore registered next_objref task_queue trace].
  rewrite <- app_assoc. reflexivity.
Qed.

(** X17: the reference the proxy returns is the one under which the main
    loop stores the result.  For a function with one declared return
    value that is in the worker's registry and known to the scheduler, a
    call without object references that passes the check, made when no
    other task is queued, returns a fresh reference; the next pass of the
    main loop takes that task, runs the body on the very arguments of the
    call, writes what the body returns under that reference, notifies the
    scheduler, and a read of the reference then gives the body's result. *)
Theorem call_then_main_loop_stores_result (worker : Worker) (ats : list descriptor)
    (t : pytype) (func : pyfunc) (args : list value) (v : value) (s sb : world) :
  let f := distributed ats [t] func in
  let r := next_objref s in
  connected worker = true ->
  is_Some (handle worker) ->
  functions worker !! func_name f = Some f ->
  registered s !! func_name f = Some 1 ->
  task_queue s = [] ->
  check_arguments f args = Returns tt ->
  references args = [] ->
  f_body func args
    (World (objstore s) (registered s) (r + 1)%nat []
           (trace s ++ [EvRemoteCall (func_name f) args;
                        EvStartWorkerService; EvWaitForNextTask])) = (Returns v, sb) ->
  exists sc sd,
    func_call worker f args s = (Returns (VObjRef r), sc) /\
    main_loop 1 worker sc = (Returns StillRunning, sd) /\
    sd = World (<[r := serialize v]> (objstore sb)) (registered sb) (next_objref sb)
               (task_queue sb)
               (trace sb ++ [EvPutObject r (serialize v); EvNotifyTaskCompleted]) /\
    fst (get_object worker r sd) = Returns v.
Proof.
  intros f r Hc [h Hh] Hf Hreg Hq Hcheck Hrefs Hbody.
  eexists _, _. split; [apply (func_call_dispatches_one worker h f args s Hh Hcheck Hreg)|].
  rewrite Hq. cbn [app].
  assert (Hexec : executor f args
            (World (objstore s) (registered s) (r + 1)%nat []
                   (trace s ++ [EvRemoteCall (func_name f) args;
                                EvStartWorkerService; EvWaitForNextTask])) = (Returns v, sb)).
  { change (executor f) with (func_executor func [t]).
    unfold func_executor, bind. rewrite Hbody. reflexivity. }
  split; [apply (main_loop_runs_dispatched_call worker h f args v r s sb
                   Hc Hh Hf Hcheck Hrefs Hexec)|].
  split; [reflexivity|].
  rewrite (get_object_present worker h r (serialize v) _ Hh); [reflexivity|].
  cbn [objstore]. apply lookup_insert_eq.
Qed.

Lemma call_then_main_loop_stores_result_witness :
  exists sc sd,
    func_call (MkWorker {[ "example.add" := Examples.add ]} true (Some Examples.the_handle))
              Examples.add [VInt 2; VInt 3] Examples.world_registered
      = (Returns (VObjRef 0%nat), sc) /\
    main_loop 1 (MkWorker {[ "example.add" := Examples.add ]} true (Some Examples.the_handle)) sc
      = (Returns StillRunning, sd) /\
    fst (get_object (MkWorker {[ "example.add" := Examples.add ]} true
                              (Some Examples.the_handle)) 0%nat sd) = Returns (VInt 5).
Proof.
  destruct (call_then_main_loop_stores_result
              (MkWorker {[ "example.add" := Examples.add ]} true (Some Examples.the_handle))
              [Some T_int; Some T_int] T_int (PyFunc "example" "add" Examples.add_body)
              [VInt 2; VInt 3] (VInt 5) Examples.world_registered
              (World ∅ {[ "example.add" := 1; "example.split" := 2 ]} 1%nat []
                     [EvRemoteCall "example.add" [VInt 2; VInt 3];
                      EvStartWorkerService; EvWaitForNextTask]))
    as (sc & sd & Hcall & Hloop & _ & Hget).
  - reflexivity.
  - eexists. reflexivity.
  - apply lookup_singleton_eq.
  - vm_compute. reflexivity.
  - reflexivity.
  - reflexivity.
  - reflexivity.
  - reflexivity.
  - exists sc, sd. split; [exact Hcall|]. split; [exact Hloop | exact Hget].
Defined.

(** ** What the error messages call the function *)

Lemma check_arguments_loop_error_name (f : function) (args : list value) :
  forall (i : Z) (e : exn) (name : string),
    check_arguments_loop f i args = Raises e ->
    named_function e = Some name -> name = __name__ f.
Proof.
  induction args as [|a rest IH]; intros i e name; simpl; [discriminate|].
  destruct (expected_type f i) as [d|e'|w] eqn:Hexp; simpl; [| |discriminate].
  - destruct (is_ObjRef a); simpl; [apply IH|].
    destruct d as [t|]; simpl.
    + destruct (issubclass (type_of a) t); simpl; [apply IH|].
      intros [= <-]. simpl. congruence.
    + intros [= <-]. discriminate.
  - intros [= <-].
    destruct (expected_type_Raises f i e' Hexp) as [-> | [-> | ->]]; discriminate.
Qed.

Lemma check_arguments_error_name (f : function) (args : list value)
    (e : exn) (name : string) :
  check_arguments f args = Raises e ->
  named_function e = Some name -> name = __name__ f.
Proof.
  unfold check_arguments.
  destruct (getitem (arg_types f) (-1)) as [d|e'|w] eqn:G.
  - destruct (negb (len args =? len (arg_types f))); simpl.
    + destruct (negb (is_None d)); simpl; [intros [= <-]; simpl; congruence|].
      destruct (len args <? len (arg_types f) - 1); simpl;
        [|apply check_arguments_loop_error_name].
      destruct (is_None d); simpl;
        [intros [= <-]; simpl; congruence | apply check_arguments_loop_error_name].
    + destruct (len args <? len (arg_types f) - 1); simpl;
        [|apply check_arguments_loop_error_name].
      destruct (is_None d); simpl;
        [intros [= <-]; simpl; congruence | apply check_arguments_loop_error_name].
  - apply getitem_Raises in G. subst e'.
    destruct (negb (len args =? len (arg_types f))); simpl; [intros [= <-]; discriminate|].
    destruct (len args <? len (arg_types f) - 1); simpl;
      [intros [= <-]; discriminate | apply check_arguments_loop_error_name].
  - unfold getitem in G. repeat case_match; discriminate.
Qed.

Lemma get_arguments_loop_error_name (f : function) (worker : Worker) (args : list value) :
  forall (i : Z) (arguments : list value) (e : exn) (name : string) (s s' : world),
    get_arguments_loop f worker i args arguments s = (Raises e, s') ->
    named_function e = Some name -> name = __name__ f.
Proof.
  induction args as [|a rest IH]; intros i arguments e name s s'; simpl; [discriminate|].
  unfold bind at 1.
  destruct (get_arguments_step f worker i a s) as [[v|e'|w] s1] eqn:Hstep;
    [| |discriminate].
  - apply IH.
  - intros [= -> _].
    destruct (get_arguments_step_Raises f worker i a e s s1 Hstep)
      as [-> | [[msg ->] | [[msg ->] | [[msg ->] | [actual [expected ->]]]]]];
      simpl; congruence.
Qed.

(** X18: line 89 renames the closure, so the errors of the call-time check
    and of resolution name a decorated function by its qualified name
    "module.name", the name under which it is registered: whatever
    function was decorated, an arity error or type mismatch raised by
    [check_arguments] or [get_arguments_for_execution] for it carries
    [func_name].  The return-count error of the executor, raised once the
    body has returned, carries the plain [func.__name__] instead. *)
Theorem decorated_function_errors_name_qualified (ats : list descriptor)
    (rts : list pytype) (func : pyfunc) (args : list value) (worker : Worker)
    (e : exn) (name : string) (s s' : world) :
  named_function e = Some name ->
  (check_arguments (distributed ats rts func) args = Raises e \/
   get_arguments_for_execution (distributed ats rts func) args worker s = (Raises e, s') ->
   name = func_name (distributed ats rts func) /\
   name = String.append (f_module func) (String.append "." (f_name func))) /\
  (forall (res : value) (s1 : world),
     f_body func args s = (Returns res, s1) ->
     executor (distributed ats rts func) args s = (Raises e, s') ->
     name = f_name func).
Proof.
  intros Hname. split.
  - intros [Hcheck|Hres].
    + pose proof (check_arguments_error_name _ _ _ _ Hcheck Hname) as ->.
      split; reflexivity.
    + unfold get_arguments_for_execution in Hres.
      pose proof (get_arguments_loop_error_name _ _ _ _ _ _ _ _ _ Hres Hname) as ->.
      split; reflexivity.
  - intros res s1 Hbody.
    change (executor (distributed ats rts func)) with (func_executor func rts).
    unfold func_executor, bind. rewrite Hbody.
    destruct (negb (len rts =? 1)); [|discriminate].
    unfold lift. destruct (py_len res) as [n|e'|w] eqn:Hlen; [| |discriminate].
    + destruct (negb (n =? len rts)); [|discriminate].
      intros [= <- _]. simpl in Hname. congruence.
    + intros [= <- _]. destruct res; simpl in Hlen; try discriminate;
        injection Hlen as <-; discriminate.
Qed.

Lemma decorated_function_errors_name_qualified_witness :
  "example.label"%string = func_name Examples.label /\
  "example.label"%string = String.append "example" (String.append "." "label").
Proof.
  apply (decorated_function_errors_name_qualified
           [Some T_int; Some T_str] [T_str]
           (PyFunc "example" "label" Examples.label_body) [VInt 1]
           Worker_init (ArityError "example.label" 2 1) "example.label"
           Examples.empty_world Examples.empty_world).
  - reflexivity.
  - left. reflexivity.
Defined.

(** ** Remaining cases *)

(** X19: a function declared without any argument descriptor accepts the
    call without arguments and no other: with one argument or more,
    [check_arguments] raises [IndexError], and so does
    [get_arguments_for_execution], at the first argument and without
    touching the world. *)
Theorem no_descriptors_accepts_only_empty_call (f : function) (args : list value)
    (worker : Worker) (s : world) :
  arg_types f = [] ->
  (check_arguments f args = Returns tt <-> args = []) /\
  (args <> [] ->
   check_arguments f args = Raises IndexError /\
   get_arguments_for_execution f args worker s = (Raises IndexError, s)).
Proof.
  intros Hnil. split; [split|].
  - intros Hret. destruct args as [|a rest]; [reflexivity|].
    rewrite (check_arguments_no_descriptors f (a :: rest) Hnil) in Hret; discriminate.
  - intros ->. unfold check_arguments. rewrite Hnil. reflexivity.
  - intros Hne. split; [apply (check_arguments_no_descriptors f args Hnil Hne)|].
    destruct args as [|a rest]; [contradiction|].
    unfold get_arguments_for_execution. apply get_arguments_loop_step_raises.
    unfold get_arguments_step, bind, lift.
    rewrite (expected_type_no_descriptors f 0 Hnil); [reflexivity | lia].
Qed.

Lemma no_descriptors_accepts_only_empty_call_witness :
  check_arguments Examples.now [] = Returns tt.
Proof.
  apply (no_descriptors_accepts_only_empty_call Examples.now [] Worker_init
           Examples.empty_world eq_refl).
  reflexivity.
Defined.

(** X20: the proxy calls the library at most once and never touches the
    object store: whatever [func_call] does -- return, raise or block --
    the store is as before, and the trace of library calls is unchanged or
    longer by the one [remote_call] that carries the function's
    [func_name] and the arguments as they were given. *)
Theorem func_call_dispatches_at_most_once (worker : Worker) (f : function)
    (args : list value) (out : result value) (s s' : world) :
  func_call worker f args s = (out, s') ->
  objstore s' = objstore s /\
  (trace s' = trace s \/ trace s' = trace s ++ [EvRemoteCall (func_name f) args]).
Proof.
  unfold func_call, remote_call, lib.remote_call, lib.serialize_call, with_handle.
  unfold bind at 1, lift at 1.
  destruct (check_arguments f args) as [[]|e|w];
    [|intros [= <- <-]; split; [reflexivity | left; reflexivity]
     |intros [= <- <-]; split; [reflexivity | left; reflexivity]].
  destruct (handle worker).
  - unfold bind, log, ret. simpl.
    destruct (registered s !! func_name f) as [n|].
    + destruct (len (seq (next_objref s) (Z.to_nat n)) =? 1).
      * unfold lift. destruct (getitem (seq (next_objref s) (Z.to_nat n)) 0);
          intros [= <- <-]; split; try reflexivity; right; reflexivity.
      * intros [= <- <-]. split; [reflexivity | right; reflexivity].
    + intros [= <- <-]. split; [reflexivity | right; reflexivity].
  - unfold bind, raise. intros [= <- <-]. split; [reflexivity | left; reflexivity].
Qed.

Lemma func_call_dispatches_at_most_once_witness :
  objstore (snd (func_call Examples.connected_worker Examples.add [VInt 2; VInt 3]
                           Examples.world_registered))
    = objstore Examples.world_registered.
Proof.
  apply (func_call_dispatches_at_most_once Examples.connected_worker Examples.add
           [VInt 2; VInt 3]
           (fst (func_call Examples.connected_worker Examples.add [VInt 2; VInt 3]
                           Examples.world_registered))
           Examples.world_registered
           (snd (func_call Examples.connected_worker Examples.add [VInt 2; VInt 3]
                           Examples.world_registered))).
  vm_compute. reflexivity.
Defined.

(** X21: when the declared return arity is not 1 and the body returns a
    value that has no length ([None], a boolean, an integer, an object
    reference), the count check itself fails: the executor raises the
    [TypeError] of [len], not the error that describes the mismatch. *)
Theorem func_executor_unsized_result_TypeError (func : pyfunc)
    (return_types : list pytype) (arguments : list value) (res : value) (s s' : world) :
  f_body func arguments s = (Returns res, s') ->
  len return_types <> 1 ->
  (forall n, py_len res <> Returns n) ->
  exists msg, func_executor func return_types arguments s = (Raises (TypeError msg), s').
Proof.
  intros Hbody Hne Hunsized. unfold func_executor, bind. rewrite Hbody.
  apply Z.eqb_neq in Hne. rewrite Hne. simpl. unfold lift.
  destruct res; simpl in *;
    try (eexists; reflexivity);
    exfalso; eapply Hunsized; reflexivity.
Qed.

Lemma func_executor_unsized_result_TypeError_witness :
  exists msg,
    func_executor (PyFunc "example" "now" (fun _ => ret (VInt 0))) [T_int; T_int] []
                  Examples.empty_world = (Raises (TypeError msg), Examples.empty_world).
Proof.
  apply (func_executor_unsized_result_TypeError
           (PyFunc "example" "now" (fun _ => ret (VInt 0))) [T_int; T_int] []
           (VInt 0) Examples.empty_world Examples.empty_world).
  - reflexivity.
  - discriminate.
  - intros n. discriminate.
Defined.

(** X22: on a worker that holds a handle, a value written with
    [put_object] is what [get_object] returns for that reference
    afterwards, and the write changes the outcome of reading no other
    reference: a reference that was present gives the value it gave before,
    one that was never written still blocks. *)
Theorem put_object_then_get_object (self : Worker) (r : objref) (v : value) (s : world) :
  is_Some (handle self) ->
  exists s1,
    put_object self r v s = (Returns tt, s1) /\
    fst (get_object self r s1) = Returns v /\
    (forall r', r' <> r -> fst (get_object self r' s1) = fst (get_object self r' s)).
Proof.
  intros [h Hh]. eexists. split; [apply (put_object_connected self h r v s Hh)|].
  split.
  - rewrite (get_object_present self h r (serialize v) _ Hh); [reflexivity|].
    cbn [objstore]. apply lookup_insert_eq.
  - intros r' Hne.
    unfold get_object, lib.get_object, bind, log, ret. rewrite Hh.
    cbn [with_handle record_event objstore fst].
    rewrite lookup_insert_ne by congruence.
    destruct (objstore s !! r'); reflexivity.
Qed.

Lemma put_object_then_get_object_witness :
  exists s1,
    put_object Examples.connected_worker 7%nat (VStr "a") Examples.empty_world
      = (Returns tt, s1) /\
    fst (get_object Examples.connected_worker 7%nat s1) = Returns (VStr "a").
Proof.
  destruct (put_object_then_get_object Examples.connected_worker 7%nat (VStr "a")
              Examples.empty_world) as (s1 & Hput & Hget & _).
  - eexists. reflexivity.
  - exists s1. split; [exact Hput | exact Hget].
Defined.
